(** * Feature tables of the documentation site

    A shallow embedding of the table-rendering component of the docs site
    (the [FEATURE_TABLES] registry, [DEPRECATED_DOC_IDS], [toTable],
    [CategoryTable], [ItemTable], [truncate] and [IndexTable]) and the
    properties of it that the specification states. *)

From Stdlib Require Import ZArith Ascii String.
From stdpp Require Import base tactics option list numbers pretty.
From Equations Require Import Equations.

Local Open Scope Z_scope.

(** ** JavaScript strings

    A JavaScript string is a sequence of UTF-16 code units; [length],
    [substring] and [endsWith] all count code units. *)

Module Js.

Definition code_unit := N.
Definition jsstring := list code_unit.

(** An ASCII literal of the source, code unit by code unit. *)
Fixpoint lit (s : string) : jsstring :=
  match s with
  | EmptyString => []
  | String c s' => N_of_ascii c :: lit s'
  end.

(** [String.prototype.substring(start, end)] on integral arguments: both
    positions are clamped to [0, length] and swapped when out of order. *)
Definition substring (s : jsstring) (start end_ : Z) : jsstring :=
  let len := Z.of_nat (length s) in
  let finalStart := Z.min (Z.max start 0) len in
  let finalEnd := Z.min (Z.max end_ 0) len in
  let from := Z.min finalStart finalEnd in
  let to := Z.max finalStart finalEnd in
  take (Z.to_nat (to - from)) (drop (Z.to_nat from) s).

(** [String.prototype.endsWith(searchString)] with the default end position. *)
Definition endsWith (s searchString : jsstring) : bool :=
  let len := length s in
  let searchLength := length searchString in
  if (len <? searchLength)%nat then false
  else bool_decide (drop (len - searchLength) s = searchString).

(** [Array.prototype.includes] on an array of strings; the searched value
    may be [undefined], which no string equals. *)
Definition includes (l : list jsstring) (x : option jsstring) : bool :=
  match x with
  | Some s => existsb (fun y => bool_decide (y = s)) l
  | None => false
  end.

(** The rendering of an array index inside a template literal. *)
Definition of_index (i : nat) : jsstring := lit (pretty i).

(** The value of a key in an object literal: of several properties with
    one key the last one written wins. *)
Fixpoint lookup_last {K V : Type} (eqb : K -> K -> bool) (k : K)
    (l : list (K * V)) : option V :=
  match l with
  | [] => None
  | (k', v) :: l' =>
      match lookup_last eqb k l' with
      | Some w => Some w
      | None => if eqb k k' then Some v else None
      end
  end.

(** What a running component gives back: a value, or a thrown error.  A
    [TypeError] comes from reading property [reading] of [undefined]; an
    [Error] is one the code throws itself, with its message. *)
Inductive exn : Type :=
| TypeError (reading : string)
| Error (message : jsstring).

Inductive result (A : Type) : Type :=
| Return (a : A)
| Throw (e : exn).

Arguments Return {A} a.
Arguments Throw {A} e.

End Js.

Import Js.

(** ** Data model *)

(** The values found in the cells and in the items of the registry:
    primitives and JSX. *)
#[local] Unset Elimination Schemes.
Inductive value : Type :=
| VUndefined
| VBool (b : bool)
| VString (s : jsstring)
| VElement (tag : string) (props : list (string * value)) (children : list value)
| VFragment (children : list value).
#[local] Set Elimination Schemes.

Definition str (s : string) : value := VString (lit s).

(** [<a href={href}>{children}</a>] *)
Definition jsx_a (href : value) (children : list value) : value :=
  VElement "a" [("href"%string, href)] children.

(** U+2705 and U+274C, one code unit each. *)
Definition check_mark : jsstring := [9989%N].
Definition cross_mark : jsstring := [10060%N].

(** An item is an object literal; [get item f] is [item.f]. *)
Definition obj := list (string * value).

Definition get (o : obj) (f : string) : value :=
  default VUndefined (lookup_last String.eqb f o).

(** The condition of [c ? x : y]. *)
Definition truthy (v : value) : bool :=
  match v with
  | VUndefined => false
  | VBool b => b
  | VString s => negb (bool_decide (s = []))
  | VElement _ _ _ | VFragment _ => true
  end.

(** [v === s] for a string [s]. *)
Definition strict_equals (v : value) (s : jsstring) : bool :=
  match v with
  | VString t => bool_decide (t = s)
  | _ => false
  end.

Record Column (Item : Type) : Type := {
  title : value;
  formatter : Item -> value
}.

Arguments title {Item} _.
Arguments formatter {Item} _ _.

Record Category : Type := {
  link : jsstring;
  columns : list (Column obj);
  items : list obj
}.

(** The rendered [<table>]: a [<thead>] of one row of [<th>] and a
    [<tbody>] of [<tr>] rows of [<td>], every element with its [key]. *)
Record th : Type := { th_key : jsstring; th_children : value }.
Record td : Type := { td_key : jsstring; td_children : value }.
Record tr : Type := { tr_key : jsstring; tr_cells : list td }.
Record table : Type := { thead : list th; tbody : list tr }.

(** ** The registry [FEATURE_TABLES] *)

Module Registry.

Definition chat : Category := {|
  link := lit "/docs/integrations/chat";
  columns := [
    {| title := str "Provider";
       formatter := fun item => jsx_a (get item "link") [get item "name"] |};
    {| title := jsx_a (str "/docs/how_to/tool_calling") [str "Tool calling"];
       formatter := fun item => if truthy (get item "tool_calling") then VString check_mark else VString cross_mark |};
    {| title := jsx_a (str "/docs/how_to/structured_output/") [str "Structured output"];
       formatter := fun item => if truthy (get item "structured_output") then VString check_mark else VString cross_mark |};
    {| title := str "JSON mode";
       formatter := fun item => if truthy (get item "json_mode") then VString check_mark else VString cross_mark |};
    {| title := str "Local";
       formatter := fun item => if truthy (get item "local") then VString check_mark else VString cross_mark |};
    {| title := jsx_a (str "/docs/how_to/multimodal_inputs/") [str "Multimodal"];
       formatter := fun item => if truthy (get item "multimodal") then VString check_mark else VString cross_mark |};
    {| title := str "Package";
       formatter := fun item => jsx_a (get item "apiLink") [get item "package"] |}
  ];
  items := [
    [ ("name", str "ChatAnthropic");
      ("package", str "langchain-anthropic");
      ("link", str "anthropic/");
      ("structured_output", VBool true);
      ("tool_calling", VBool true);
      ("json_mode", VBool false);
      ("multimodal", VBool true);
      ("local", VBool false);
      ("apiLink", str "https://api.python.langchain.com/en/latest/chat_models/langchain_anthropic.chat_models.ChatAnthropic.html#langchain_anthropic.chat_models.ChatAnthropic") ];
    [ ("name", str "ChatMistralAI");
      ("package", str "langchain-mistralai");
      ("link", str "mistralai/");
      ("structured_output", VBool true);
      ("tool_calling", VBool true);
      ("json_mode", VBool false);
      ("multimodal", VBool false);
      ("local", VBool false);
      ("apiLink", str "https://api.python.langchain.com/en/latest/chat_models/langchain_mistralai.chat_models.ChatMistralAI.html#langchain_mistralai.chat_models.ChatMistralAI") ];
    [ ("name", str "ChatFireworks");
      ("package", str "langchain-fireworks");
      ("link", str "fireworks/");
      ("structured_output", VBool true);
      ("tool_calling", VBool true);
      ("json_mode", VBool true);
      ("multimodal", VBool false);
      ("local", VBool false);
      ("apiLink", str "https://api.python.langchain.com/en/latest/chat_models/langchain_fireworks.chat_models.ChatFireworks.html#langchain_fireworks.chat_models.ChatFireworks") ];
    [ ("name", str "AzureChatOpenAI");
      ("package", str "langchain-openai");
      ("link", str "azure_chat_openai/");
      ("structured_output", VBool true);
      ("tool_calling", VBool true);
      ("json_mode", VBool true);
      ("multimodal", VBool true);
      ("local", VBool false);
      ("apiLink", str "https://api.python.langchain.com/en/latest/chat_models/langchain_openai.chat_models.azure.AzureChatOpenAI.html#langchain_openai.chat_models.azure.AzureChatOpenAI") ];
    [ ("name", str "ChatOpenAI");
      ("package", str "langchain-openai");
      ("link", str "openai/");
      ("structured_output", VBool true);
      ("tool_calling", VBool true);
      ("json_mode", VBool true);
      ("multimodal", VBool true);
      ("local", VBool false);
      ("apiLink", str "https://api.python.langchain.com/en/latest/chat_models/langchain_openai.chat_models.base.ChatOpenAI.html#langchain_openai.chat_models.base.ChatOpenAI") ];
    [ ("name", str "ChatTogether");
      ("package", str "langchain-together");
      ("link", str "together/");
      ("structured_output", VBool true);
      ("tool_calling", VBool true);
      ("json_mode", VBool true);
      ("multimodal", VBool false);
      ("local", VBool false);
      ("apiLink", str "https://api.python.langchain.com/en/latest/chat_models/langchain_together.chat_models.ChatTogether.html#langchain_together.chat_models.ChatTogether") ];
    [ ("name", str "ChatVertexAI");
      ("package", str "langchain-google-vertexai");
      ("link", str "google_vertex_ai_palm/");
      ("structured_output", VBool true);
      ("tool_calling", VBool true);
      ("json_mode", VBool false);
      ("multimodal", VBool true);
      ("local", VBool false);
      ("apiLink", str "https://api.python.langchain.com/en/latest/chat_models/langchain_google_vertexai.chat_models.ChatVertexAI.html#langchain_google_vertexai.chat_models.ChatVertexAI") ];
    [ ("name", str "ChatGoogleGenerativeAI");
      ("package", str "langchain-google-genai");
      ("link", str "google_generative_ai/");
      ("structured_output", VBool true);
      ("tool_calling", VBool true);
      ("json_mode", VBool false);
      ("multimodal", VBool true);
      ("local", VBool false);
      ("apiLink", str "https://api.python.langchain.com/en/latest/chat_models/langchain_google_genai.chat_models.ChatGoogleGenerativeAI.html#langchain_google_genai.chat_models.ChatGoogleGenerativeAI") ];
    [ ("name", str "ChatGroq");
      ("package", str "langchain-groq");
      ("link", str "groq/");
      ("structured_output", VBool true);
      ("tool_calling", VBool true);
      ("json_mode", VBool true);
      ("multimodal", VBool false);
      ("local", VBool false);
      ("apiLink", str "https://api.python.langchain.com/en/latest/chat_models/langchain_groq.chat_models.ChatGroq.html#langchain_groq.chat_models.ChatGroq") ];
    [ ("name", str "ChatCohere");
      ("package", str "langchain-cohere");
      ("link", str "cohere/");
      ("structured_output", VBool true);
      ("tool_calling", VBool true);
      ("json_mode", VBool false);
      ("multimodal", VBool false);
      ("local", VBool false);
      ("apiLink", str "https://api.python.langchain.com/en/latest/chat_models/langchain_cohere.chat_models.ChatCohere.html#langchain_cohere.chat_models.ChatCohere") ];
    [ ("name", str "ChatBedrock");
      ("package", str "langchain-aws");
      ("link", str "bedrock/");
      ("structured_output", VBool true);
      ("tool_calling", VBool true);
      ("json_mode", VBool false);
      ("multimodal", VBool false);
      ("local", VBool false);
      ("apiLink", str "https://api.python.langchain.com/en/latest/chat_models/langchain_aws.chat_models.bedrock.ChatBedrock.html#langchain_aws.chat_models.bedrock.ChatBedrock") ];
    [ ("name", str "ChatHuggingFace");
      ("package", str "langchain-huggingface");
      ("link", str "huggingface/");
      ("structured_output", VBool true);
      ("tool_calling", VBool true);
      ("json_mode", VBool false);
      ("multimodal", VBool false);
      ("local", VBool true);
      ("apiLink", str "https://api.python.langchain.com/en/latest/chat_models/langchain_huggingface.chat_models.huggingface.ChatHuggingFace.html#langchain_huggingface.chat_models.huggingface.ChatHuggingFace") ];
    [ ("name", str "ChatNVIDIA");
      ("package", str "langchain-nvidia-ai-endpoints");
      ("link", str "nvidia_ai_endpoints/");
      ("structured_output", VBool true);
      ("tool_calling", VBool true);
      ("json_mode", VBool false);
      ("multimodal", VBool false);
      ("local", VBool true);
      ("apiLink", str "https://api.python.langchain.com/en/latest/chat_models/langchain_nvidia_ai_endpoints.chat_models.ChatNVIDIA.html#langchain_nvidia_ai_endpoints.chat_models.ChatNVIDIA") ];
    [ ("name", str "ChatOllama");
      ("package", str "langchain-ollama");
      ("link", str "ollama/");
      ("structured_output", VBool true);
      ("tool_calling", VBool true);
      ("json_mode", VBool true);
      ("multimodal", VBool false);
      ("local", VBool true);
      ("apiLink", str "https://api.python.langchain.com/en/latest/chat_models/langchain_ollama.chat_models.ChatOllama.html#langchain_ollama.chat_models.ChatOllama") ];
    [ ("name", str "ChatLlamaCpp");
      ("package", str "langchain-community");
      ("link", str "llamacpp");
      ("structured_output", VBool true);
      ("tool_calling", VBool true);
      ("json_mode", VBool false);
      ("multimodal", VBool false);
      ("local", VBool true);
      ("apiLink", str "https://api.python.langchain.com/en/latest/chat_models/langchain_community.chat_models.llamacpp.ChatLlamaCpp.html#langchain_community.chat_models.llamacpp.ChatLlamaCpp") ];
    [ ("name", str "ChatAI21");
      ("package", str "langchain-ai21");
      ("link", str "ai21");
      ("structured_output", VBool true);
      ("tool_calling", VBool true);
      ("json_mode", VBool false);
      ("multimodal", VBool false);
      ("local", VBool false);
      ("apiLink", str "https://api.python.langchain.com/en/latest/chat_models/langchain_ai21.chat_models.ChatAI21.html#langchain_ai21.chat_models.ChatAI21") ];
    [ ("name", str "ChatUpstage");
      ("package", str "langchain-upstage");
      ("link", str "upstage");
      ("structured_output", VBool true);
      ("tool_calling", VBool true);
      ("json_mode", VBool false);
      ("multimodal", VBool false);
      ("local", VBool false);
      ("apiLink", str "https://api.python.langchain.com/en/latest/chat_models/langchain_upstage.chat_models.ChatUpstage.html#langchain_upstage.chat_models.ChatUpstage") ]
  ]
|}.

Definition llms : Category := {|
  link := lit "/docs/integrations/llms";
  columns := [
    {| title := str "Provider";
       formatter := fun item => jsx_a (get item "link") [get item "name"] |};
    {| title := str "Package";
       formatter := fun item => jsx_a (get item "apiLink") [get item "package"] |}
  ];
  items := [
    [ ("name", str "AI21LLM");
      ("link", str "ai21");
      ("package", str "langchain-ai21");
      ("apiLink", str "https://api.python.langchain.com/en/latest/llms/langchain_ai21.llms.AI21LLM.html#langchain_ai21.llms.AI21LLM") ];
    [ ("name", str "AnthropicLLM");
      ("link", str "anthropic");
      ("package", str "langchain-anthropic");
      ("apiLink", str "https://api.python.langchain.com/en/latest/llms/langchain_anthropic.llms.AnthropicLLM.html#langchain_anthropic.llms.AnthropicLLM") ];
    [ ("name", str "AzureOpenAI");
      ("link", str "azure_openai");
      ("package", str "langchain-openai");
      ("apiLink", str "https://api.python.langchain.com/en/latest/llms/langchain_openai.llms.azure.AzureOpenAI.html#langchain_openai.llms.azure.AzureOpenAI") ];
    [ ("name", str "BedrockLLM");
      ("link", str "bedrock");
      ("package", str "langchain-aws");
      ("apiLink", str "https://api.python.langchain.com/en/latest/llms/langchain_aws.llms.bedrock.BedrockLLM.html#langchain_aws.llms.bedrock.BedrockLLM") ];
    [ ("name", str "CohereLLM");
      ("link", str "cohere");
      ("package", str "langchain-cohere");
      ("apiLink", str "https://api.python.langchain.com/en/latest/llms/langchain_cohere.llms.Cohere.html#langchain_cohere.llms.Cohere") ];
    [ ("name", str "FireworksLLM");
      ("link", str "fireworks");
      ("package", str "langchain-fireworks");
      ("apiLink", str "https://api.python.langchain.com/en/latest/llms/langchain_fireworks.llms.Fireworks.html#langchain_fireworks.llms.Fireworks") ];
    [ ("name", str "OllamaLLM");
      ("link", str "ollama");
      ("package", str "langchain-ollama");
      ("apiLink", str "https://api.python.langchain.com/en/latest/llms/langchain_ollama.llms.OllamaLLM.html#langchain_ollama.llms.OllamaLLM") ];
    [ ("name", str "OpenAILLM");
      ("link", str "openai");
      ("package", str "langchain-openai");
      ("apiLink", str "https://api.python.langchain.com/en/latest/llms/langchain_openai.llms.base.OpenAI.html#langchain_openai.llms.base.OpenAI") ];
    [ ("name", str "TogetherLLM");
      ("link", str "together");
      ("package", str "langchain-together");
      ("apiLink", str "https://api.python.langchain.com/en/latest/llms/langchain_together.llms.Together.html#langchain_together.llms.Together") ];
    [ ("name", str "VertexAILLM");
      ("link", str "google_vertexai");
      ("package", str "langchain-google_vertexai");
      ("apiLink", str "https://api.python.langchain.com/en/latest/llms/langchain_google_vertexai.llms.VertexAI.html#langchain_google_vertexai.llms.VertexAI") ]
  ]
|}.

Definition text_embedding : Category := {|
  link := lit "/docs/integrations/text_embedding";
  columns := [
    {| title := str "Provider";
       formatter := fun item => jsx_a (get item "link") [get item "name"] |};
    {| title := str "Package";
       formatter := fun item => jsx_a (get item "apiLink") [get item "package"] |}
  ];
  items := [
    [ ("name", str "AzureOpenAI");
      ("link", str "azureopenai");
      ("package", str "langchain-openai");
      ("apiLink", str "https://api.python.langchain.com/en/latest/embeddings/langchain_openai.embeddings.azure.AzureOpenAIEmbeddings.html#langchain_openai.embeddings.azure.AzureOpenAIEmbeddings") ];
    [ ("name", str "Ollama");
      ("link", str "ollama");
      ("package", str "langchain-ollama");
      ("apiLink", str "https://api.python.langchain.com/en/latest/embeddings/langchain_ollama.embeddings.OllamaEmbeddings.html#langchain_ollama.embeddings.OllamaEmbeddings") ];
    [ ("name", str "AI21");
      ("link", str "ai21");
      ("package", str "langchain-ai21");
      ("apiLink", str "https://api.python.langchain.com/en/latest/embeddings/langchain_ai21.embeddings.AI21Embeddings.html#langchain_ai21.embeddings.AI21Embeddings") ];
    [ ("name", str "Fake");
      ("link", str "fake");
      ("package", str "langchain-core");
      ("apiLink", str "https://api.python.langchain.com/en/latest/embeddings/langchain_core.embeddings.fake.FakeEmbeddings.html#langchain_core.embeddings.fake.FakeEmbeddings") ];
    [ ("name", str "OpenAI");
      ("link", str "openai");
      ("package", str "langchain-openai");
      ("apiLink", str "https://api.python.langchain.com/en/latest/chat_models/langchain_openai.chat_models.base.ChatOpenAI.html#langchain_openai.chat_models.base.ChatOpenAI") ];
    [ ("name", str "Together");
      ("link", str "together");
      ("package", str "langchain-together");
      ("apiLink", str "https://api.python.langchain.com/en/latest/embeddings/langchain_together.embeddings.TogetherEmbeddings.html#langchain_together.embeddings.TogetherEmbeddings") ];
    [ ("name", str "Fireworks");
      ("link", str "fireworks");
      ("package", str "langchain-fireworks");
      ("apiLink", str "https://api.python.langchain.com/en/latest/embeddings/langchain_fireworks.embeddings.FireworksEmbeddings.html#langchain_fireworks.embeddings.FireworksEmbeddings") ];
    [ ("name", str "MistralAI");
      ("link", str "mistralai");
      ("package", str "langchain-mistralai");
      ("apiLink", str "https://api.python.langchain.com/en/latest/embeddings/langchain_mistralai.embeddings.MistralAIEmbeddings.html#langchain_mistralai.embeddings.MistralAIEmbeddings") ];
    [ ("name", str "Cohere");
      ("link", str "cohere");
      ("package", str "langchain-cohere");
      ("apiLink", str "https://api.python.langchain.com/en/latest/embeddings/langchain_cohere.embeddings.CohereEmbeddings.html#langchain_cohere.embeddings.CohereEmbeddings") ];
    [ ("name", str "Nomic");
      ("link", str "cohere");
      ("package", str "langchain-nomic");
      ("apiLink", str "https://api.python.langchain.com/en/latest/embeddings/langchain_nomic.embeddings.NomicEmbeddings.html#langchain_nomic.embeddings.NomicEmbeddings") ]
  ]
|}.

Definition document_retrievers : Category := {|
  link := lit "docs/integrations/retrievers";
  columns := [
    {| title := str "Retriever";
       formatter := fun item => jsx_a (get item "link") [get item "name"] |};
    {| title := str "Self-host";
       formatter := fun item => if truthy (get item "selfHost") then VString check_mark else VString cross_mark |};
    {| title := str "Cloud offering";
       formatter := fun item => if truthy (get item "cloudOffering") then VString check_mark else VString cross_mark |};
    {| title := str "Package";
       formatter := fun item => jsx_a (get item "apiLink") [get item "package"] |}
  ];
  items := [
    [ ("name", str "AmazonKnowledgeBasesRetriever");
      ("link", str "bedrock");
      ("selfHost", VBool false);
      ("cloudOffering", VBool true);
      ("apiLink", str "https://api.python.langchain.com/en/latest/retrievers/langchain_aws.retrievers.bedrock.AmazonKnowledgeBasesRetriever.html");
      ("package", str "langchain_aws") ];
    [ ("name", str "AzureAISearchRetriever");
      ("link", str "azure_ai_search");
      ("selfHost", VBool false);
      ("cloudOffering", VBool true);
      ("apiLink", str "https://api.python.langchain.com/en/latest/retrievers/langchain_community.retrievers.azure_ai_search.AzureAISearchRetriever.html");
      ("package", str "langchain_community") ];
    [ ("name", str "ElasticsearchRetriever");
      ("link", str "elasticsearch_retriever");
      ("selfHost", VBool true);
      ("cloudOffering", VBool true);
      ("apiLink", str "https://api.python.langchain.com/en/latest/retrievers/langchain_elasticsearch.retrievers.ElasticsearchRetriever.html");
      ("package", str "langchain_elasticsearch") ];
    [ ("name", str "MilvusCollectionHybridSearchRetriever");
      ("link", str "milvus_hybrid_search");
      ("selfHost", VBool true);
      ("cloudOffering", VBool false);
      ("apiLink", str "https://api.python.langchain.com/en/latest/retrievers/langchain_milvus.retrievers.milvus_hybrid_search.MilvusCollectionHybridSearchRetriever.html");
      ("package", str "langchain_milvus") ];
    [ ("name", str "VertexAISearchRetriever");
      ("link", str "google_vertex_ai_search");
      ("selfHost", VBool false);
      ("cloudOffering", VBool true);
      ("apiLink", str "https://api.python.langchain.com/en/latest/vertex_ai_search/langchain_google_community.vertex_ai_search.VertexAISearchRetriever.html");
      ("package", str "langchain_google_community") ]
  ]
|}.

Definition external_retrievers : Category := {|
  link := lit "docs/integrations/retrievers";
  columns := [
    {| title := str "Retriever";
       formatter := fun item => jsx_a (get item "link") [get item "name"] |};
    {| title := str "Source";
       formatter := fun item => get item "source" |};
    {| title := str "Package";
       formatter := fun item => jsx_a (get item "apiLink") [get item "package"] |}
  ];
  items := [
    [ ("name", str "ArxivRetriever");
      ("link", str "arxiv");
      ("source", VFragment [str "Scholarly articles on "; jsx_a (str "https://arxiv.org/") [str "arxiv.org"]]);
      ("apiLink", str "https://api.python.langchain.com/en/latest/retrievers/langchain_community.retrievers.arxiv.ArxivRetriever.html");
      ("package", str "langchain_community") ];
    [ ("name", str "TavilySearchAPIRetriever");
      ("link", str "tavily");
      ("source", str "Internet search");
      ("apiLink", str "https://api.python.langchain.com/en/latest/retrievers/langchain_community.retrievers.tavily_search_api.TavilySearchAPIRetriever.html");
      ("package", str "langchain_community") ];
    [ ("name", str "WikipediaRetriever");
      ("link", str "wikipedia");
      ("source", VFragment [jsx_a (str "https://www.wikipedia.org/") [str "Wikipedia"]; str " articles"]);
      ("apiLink", str "https://api.python.langchain.com/en/latest/retrievers/langchain_community.retrievers.wikipedia.WikipediaRetriever.html");
      ("package", str "langchain_community") ]
  ]
|}.

Definition document_loaders : Category := {|
  link := lit "docs/integrations/loaders";
  columns := [];
  items := []
|}.

Definition cloud_provider_loaders : Category := {|
  link := lit "docs/integrations/loaders";
  columns := [
    {| title := str "Document Loader";
       formatter := fun item => jsx_a (get item "link") [get item "name"] |};
    {| title := str "Description";
       formatter := fun item => get item "source" |};
    {| title := str "Partner Package";
       formatter := fun item => if truthy (get item "partnerPackage") then VString check_mark else VString cross_mark |};
    {| title := str "API reference";
       formatter := fun item => jsx_a (get item "apiLink") [get item "loaderName"] |}
  ];
  items := [
    [ ("name", str "AWS S3 Directory");
      ("link", str "aws_s3_directory");
      ("source", str "Load documents from an AWS S3 directory");
      ("partnerPackage", VBool false);
      ("loaderName", str "S3DirectoryLoader");
      ("apiLink", str "https://api.python.langchain.com/en/latest/document_loaders/langchain_community.document_loaders.s3_directory.S3DirectoryLoader.html") ];
    [ ("name", str "AWS S3 File");
      ("link", str "aws_s3_file");
      ("source", str "Load documents from an AWS S3 file");
      ("partnerPackage", VBool false);
      ("loaderName", str "S3FileLoader");
      ("apiLink", str "https://api.python.langchain.com/en/latest/document_loaders/langchain_community.document_loaders.s3_file.S3FileLoader.html") ];
    [ ("name", str "Azure AI Data");
      ("link", str "azure_ai_data");
      ("source", str "Load documents from Azure AI services");
      ("partnerPackage", VBool false);
      ("loaderName", str "AzureAIDataLoader");
      ("apiLink", str "https://api.python.langchain.com/en/latest/document_loaders/langchain_community.document_loaders.azure_ai_data.AzureAIDataLoader.html") ];
    [ ("name", str "Azure Blob Storage Container");
      ("link", str "azure_blob_storage_container");
      ("source", str "Load documents from an Azure Blob Storage container");
      ("partnerPackage", VBool false);
      ("loaderName", str "AzureBlobStorageContainerLoader");
      ("apiLink", str "https://api.python.langchain.com/en/latest/document_loaders/langchain_community.document_loaders.azure_blob_storage_container.AzureBlobStorageContainerLoader.html") ];
    [ ("name", str "Azure Blob Storage File");
      ("link", str "azure_blob_storage_file");
      ("source", str "Load documents from an Azure Blob Storage file");
      ("partnerPackage", VBool false);
      ("loaderName", str "AzureBlobStorageFileLoader");
      ("apiLink", str "https://api.python.langchain.com/en/latest/document_loaders/langchain_community.document_loaders.azure_blob_storage_file.AzureBlobStorageFileLoader.html") ];
    [ ("name", str "Dropbox");
      ("link", str "dropbox");
      ("source", str "Load documents from Dropbox");
      ("partnerPackage", VBool false);
      ("loaderName", str "DropboxLoader");
      ("apiLink", str "https://api.python.langchain.com/en/latest/document_loaders/langchain_community.document_loaders.dropbox.DropboxLoader.html") ];
    [ ("name", str "Google Cloud Storage Directory");
      ("link", str "google_cloud_storage_directory");
      ("source", str "Load documents from GCS bucket");
      ("partnerPackage", VBool true);
      ("loaderName", str "GCSDirectoryLoader");
      ("apiLink", str "https://api.python.langchain.com/en/latest/gcs_directory/langchain_google_community.gcs_directory.GCSDirectoryLoader.html") ];
    [ ("name", str "Google Cloud Storage File");
      ("link", str "google_cloud_storage_file");
      ("source", str "Load documents from GCS file object");
      ("partnerPackage", VBool true);
      ("loaderName", str "GCSFileLoader");
      ("apiLink", str "https://api.python.langchain.com/en/latest/gcs_file/langchain_google_community.gcs_file.GCSFileLoader.html") ];
    [ ("name", str "Google Drive");
      ("link", str "google_drive");
      ("source", str "Load documents from Google Drive (Google Docs only)");
      ("partnerPackage", VBool true);
      ("loaderName", str "GoogleDriveLoader");
      ("apiLink", str "https://api.python.langchain.com/en/latest/drive/langchain_google_community.drive.GoogleDriveLoader.html") ];
    [ ("name", str "Huawei OBS Directory");
      ("link", str "huawei_obs_directory");
      ("source", str "Load documents from Huawei Object Storage Service Directory");
      ("partnerPackage", VBool false);
      ("loaderName", str "OBSDirectoryLoader");
      ("apiLink", str "https://api.python.langchain.com/en/latest/document_loaders/langchain_community.document_loaders.obs_directory.OBSDirectoryLoader.html") ];
    [ ("name", str "Huawei OBS File");
      ("link", str "huawei_obs_file");
      ("source", str "Load documents from Huawei Object Storage Service File");
      ("partnerPackage", VBool false);
      ("loaderName", str "OBSFileLoader");
      ("apiLink", str "https://api.python.langchain.com/en/latest/document_loaders/langchain_community.document_loaders.obs_file.OBSFileLoader.html") ];
    [ ("name", str "Microsoft OneDrive");
      ("link", str "microsoft_onedrive");
      ("source", str "Load documents from Microsoft OneDrive");
      ("partnerPackage", VBool false);
      ("loaderName", str "OneDriveLoader");
      ("apiLink", str "https://api.python.langchain.com/en/latest/document_loaders/langchain_community.document_loaders.onedrive.OneDriveLoader.html") ];
    [ ("name", str "Microsoft SharePoint");
      ("link", str "microsoft_sharepoint");
      ("source", str "Load documents from Microsoft SharePoint");
      ("partnerPackage", VBool false);
      ("loaderName", str "SharePointLoader");
      ("apiLink", str "https://api.python.langchain.com/en/latest/document_loaders/langchain_community.document_loaders.sharepoint.SharePointLoader.html") ];
    [ ("name", str "Tencent COS Directory");
      ("link", str "tencent_cos_directory");
      ("source", str "Load documents from Tencent Cloud Object Storage Directory");
      ("partnerPackage", VBool false);
      ("loaderName", str "TencentCOSDirectoryLoader");
      ("apiLink", str "https://api.python.langchain.com/en/latest/document_loaders/langchain_community.document_loaders.tencent_cos_directory.TencentCOSDirectoryLoader.html") ];
    [ ("name", str "Tencent COS File");
      ("link", str "tencent_cos_file");
      ("source", str "Load documents from Tencent Cloud Object Storage File");
      ("partnerPackage", VBool false);
      ("loaderName", str "TencentCOSFileLoader");
      ("apiLink", str "https://api.python.langchain.com/en/latest/document_loaders/langchain_community.document_loaders.tencent_cos_file.TencentCOSFileLoader.html") ]
  ]
|}.

Definition messaging_loaders : Category := {|
  link := lit "docs/integrations/loaders";
  columns := [
    {| title := str "Document Loader";
       formatter := fun item => jsx_a (get item "link") [get item "name"] |};
    {| title := str "API reference";
       formatter := fun item => jsx_a (get item "apiLink") [get item "loaderName"] |}
  ];
  items := [
    [ ("name", str "Telegram");
      ("link", str "telegram");
      ("loaderName", str "TelegramChatFileLoader");
      ("apiLink", str "https://api.python.langchain.com/en/latest/document_loaders/langchain_community.document_loaders.telegram.TelegramChatFileLoader.html") ];
    [ ("name", str "WhatsApp");
      ("link", str "whatsapp_chat");
      ("loaderName", str "WhatsAppChatLoader");
      ("apiLink", str "https://api.python.langchain.com/en/latest/chat_loaders/langchain_community.chat_loaders.whatsapp.WhatsAppChatLoader.html") ];
    [ ("name", str "Discord");
      ("link", str "discord");
      ("loaderName", str "DiscordChatLoader");
      ("apiLink", str "https://api.python.langchain.com/en/latest/document_loaders/langchain_community.document_loaders.discord.DiscordChatLoader.html") ];
    [ ("name", str "Facebook Chat");
      ("link", str "facebook_chat");
      ("loaderName", str "FacebookChatLoader");
      ("apiLink", str "https://api.python.langchain.com/en/latest/document_loaders/langchain_community.document_loaders.facebook_chat.FacebookChatLoader.html") ];
    [ ("name", str "Mastodon");
      ("link", str "mastodon");
      ("loaderName", str "MastodonTootsLoader");
      ("apiLink", str "https://api.python.langchain.com/en/latest/document_loaders/langchain_community.document_loaders.mastodon.MastodonTootsLoader.html") ]
  ]
|}.

Definition productivity_loaders : Category := {|
  link := lit "docs/integrations/loaders";
  columns := [
    {| title := str "Document Loader";
       formatter := fun item => jsx_a (get item "link") [get item "name"] |};
    {| title := str "API reference";
       formatter := fun item => jsx_a (get item "apiLink") [get item "loaderName"] |}
  ];
  items := [
    [ ("name", str "Figma");
      ("link", str "figma");
      ("loaderName", str "FigmaFileLoader");
      ("apiLink", str "https://api.python.langchain.com/en/latest/document_loaders/langchain_community.document_loaders.figma.FigmaFileLoader.html") ];
    [ ("name", str "Notion");
      ("link", str "notion");
      ("loaderName", str "NotionDirectoryLoader");
      ("apiLink", str "https://api.python.langchain.com/en/latest/document_loaders/langchain_community.document_loaders.notion.NotionDirectoryLoader.html") ];
    [ ("name", str "Slack");
      ("link", str "slack");
      ("loaderName", str "SlackDirectoryLoader");
      ("apiLink", str "https://api.python.langchain.com/en/latest/document_loaders/langchain_community.document_loaders.slack_directory.SlackDirectoryLoader.html") ];
    [ ("name", str "Quip");
      ("link", str "quip");
      ("loaderName", str "QuipLoader");
      ("apiLink", str "https://api.python.langchain.com/en/latest/document_loaders/langchain_community.document_loaders.quip.QuipLoader.html") ];
    [ ("name", str "Trello");
      ("link", str "trello");
      ("loaderName", str "TrelloLoader");
      ("apiLink", str "https://api.python.langchain.com/en/latest/document_loaders/langchain_community.document_loaders.trello.TrelloLoader.html") ];
    [ ("name", str "Roam");
      ("link", str "roam");
      ("loaderName", str "RoamLoader");
      ("apiLink", str "https://api.python.langchain.com/en/latest/document_loaders/langchain_community.document_loaders.roam.RoamLoader.html") ];
    [ ("name", str "GitHub");
      ("link", str "github");
      ("loaderName", str "GithubFileLoader");
      ("apiLink", str "https://api.python.langchain.com/en/latest/document_loaders/langchain_community.document_loaders.github.GithubFileLoader.html") ]
  ]
|}.

Definition social_loaders : Category := {|
  link := lit "docs/integrations/loaders";
  columns := [
    {| title := str "Document Loader";
       formatter := fun item => jsx_a (get item "link") [get item "name"] |};
    {| title := str "API reference";
       formatter := fun item => jsx_a (get item "apiLink") [get item "loaderName"] |}
  ];
  items := [
    [ ("name", str "Twitter");
      ("link", str "twitter");
      ("loaderName", str "TwitterTweetLoader");
      ("apiLink", str "https://api.python.langchain.com/en/latest/document_loaders/langchain_community.document_loaders.twitter.TwitterTweetLoader.html") ];
    [ ("name", str "Reddit");
      ("link", str "RedditPostsLoader");
      ("loaderName", str "RedditPostsLoader");
      ("apiLink", str "https://api.python.langchain.com/en/latest/document_loaders/langchain_community.document_loaders.reddit.RedditPostsLoader.html") ]
  ]
|}.

Definition webpage_loaders : Category := {|
  link := lit "docs/integrations/loaders";
  columns := [
    {| title := str "Document Loader";
       formatter := fun item => jsx_a (get item "link") [get item "name"] |};
    {| title := str "Description";
       formatter := fun item => get item "source" |};
    {| title := str "Package/API";
       formatter := fun item => get item "api" |}
  ];
  items := [
    [ ("name", str "Web");
      ("link", str "web_base");
      ("source", str "Uses urllib and BeautifulSoup to load and parse HTML web pages");
      ("api", str "Package");
      ("apiLink", str "https://api.python.langchain.com/en/latest/document_loaders/langchain_community.document_loaders.web_base.WebBaseLoader.html") ];
    [ ("name", str "RecursiveURL");
      ("link", str "recursive_url");
      ("source", str "Recursively scrapes all child links from a root URL");
      ("api", str "Package");
      ("apiLink", str "https://api.python.langchain.com/en/latest/document_loaders/langchain_community.document_loaders.recursive_url_loader.RecursiveUrlLoader.html") ];
    [ ("name", str "Sitemap");
      ("link", str "sitemap");
      ("source", str "Scrapes all pages on a given sitemap");
      ("api", str "Package");
      ("apiLink", str "https://api.python.langchain.com/en/latest/document_loaders/langchain_community.document_loaders.sitemap.SitemapLoader.html") ];
    [ ("name", str "Firecrawl");
      ("link", str "firecrawl");
      ("source", str "API service that can be deployed locally, hosted version has free credits.");
      ("api", str "API");
      ("apiLink", str "https://api.python.langchain.com/en/latest/document_loaders/langchain_community.document_loaders.firecrawl.FireCrawlLoader.html") ]
  ]
|}.

Definition pdf_loaders : Category := {|
  link := lit "docs/integrations/loaders";
  columns := [
    {| title := str "Document Loader";
       formatter := fun item => jsx_a (get item "link") [get item "name"] |};
    {| title := str "Description";
       formatter := fun item => get item "source" |};
    {| title := str "Package/API";
       formatter := fun item => get item "api" |}
  ];
  items := [
    [ ("name", str "PyPDF");
      ("link", str "pypdfloader");
      ("source", str "Uses `pypdf` to load and parse PDFs");
      ("api", str "Package");
      ("apiLink", str "https://api.python.langchain.com/en/latest/document_loaders/langchain_community.document_loaders.pdf.PyPDFLoader.html") ];
    [ ("name", str "Unstructured");
      ("link", str "unstructured_file");
      ("source", str "Uses Unstructured's open source library to load PDFs");
      ("api", str "Package");
      ("apiLink", str "https://api.python.langchain.com/en/latest/document_loaders/langchain_unstructured.document_loaders.UnstructuredLoader.html") ];
    [ ("name", str "Amazon Textract");
      ("link", str "amazon_textract");
      ("source", str "Uses AWS API to load PDFs");
      ("api", str "API");
      ("apiLink", str "https://api.python.langchain.com/en/latest/document_loaders/langchain_community.document_loaders.pdf.AmazonTextractPDFLoader.html") ];
    [ ("name", str "MathPix");
      ("link", str "mathpix");
      ("source", str "Uses MathPix to laod PDFs");
      ("api", str "Package");
      ("apiLink", str "https://api.python.langchain.com/en/latest/document_loaders/langchain_community.document_loaders.pdf.MathpixPDFLoader.html") ];
    [ ("name", str "PDFPlumber");
      ("link", str "pdfplumber");
      ("source", str "Load PDF files using PDFPlumber");
      ("api", str "Package");
      ("apiLink", str "https://api.python.langchain.com/en/latest/document_loaders/langchain_community.document_loaders.pdf.PDFPlumberLoader.html") ];
    [ ("name", str "PyPDFDirectry");
      ("link", str "pypdfdirectory");
      ("source", str "Load a directory with PDF files");
      ("api", str "Package");
      ("apiLink", str "https://api.python.langchain.com/en/latest/document_loaders/langchain_community.document_loaders.pdf.PyPDFDirectoryLoader.html") ];
    [ ("name", str "PyPDFium2");
      ("link", str "pypdfium2");
      ("source", str "Load PDF files using PyPDFium2");
      ("api", str "Package");
      ("apiLink", str "https://api.python.langchain.com/en/latest/document_loaders/langchain_community.document_loaders.pdf.PyPDFium2Loader.html") ];
    [ ("name", str "UnstructuredPDFLoader");
      ("link", str "unstructured_pdfloader");
      ("source", str "Load PDF files using Unstructured");
      ("api", str "Package");
      ("apiLink", str "https://api.python.langchain.com/en/latest/document_loaders/langchain_community.document_loaders.pdf.UnstructuredPDFLoader.html") ];
    [ ("name", str "PyMuPDF");
      ("link", str "pymupdf");
      ("source", str "Load PDF files using PyMuPDF");
      ("api", str "Package");
      ("apiLink", str "https://api.python.langchain.com/en/latest/document_loaders/langchain_community.document_loaders.pdf.PyMuPDFLoader.html") ];
    [ ("name", str "PDFMiner");
      ("link", str "pdfminer");
      ("source", str "Load PDF files using PDFMiner");
      ("api", str "Package");
      ("apiLink", str "https://api.python.langchain.com/en/latest/document_loaders/langchain_community.document_loaders.pdf.PDFMinerLoader.html") ]
  ]
|}.

Definition common_loaders : Category := {|
  link := lit "docs/integrations/loaders";
  columns := [
    {| title := str "Document Loader";
       formatter := fun item => jsx_a (get item "link") [get item "name"] |};
    {| title := str "Data Type";
       formatter := fun item => get item "source" |}
  ];
  items := [
    [ ("name", str "CSVLoader");
      ("link", str "csv");
      ("source", str "CSV files");
      ("apiLink", str "https://api.python.langchain.com/en/latest/document_loaders/langchain_community.document_loaders.csv_loader.CSVLoader.html") ];
    [ ("name", str "DirectoryLoader");
      ("link", str "../../how_to/document_loader_directory");
      ("source", str "All files in a given directory");
      ("apiLink", str "https://api.python.langchain.com/en/latest/document_loaders/langchain_community.document_loaders.directory.DirectoryLoader.html") ];
    [ ("name", str "Unstructured");
      ("link", str "unstructured_file");
      ("source", str "All file types");
      ("apiLink", str "https://api.python.langchain.com/en/latest/document_loaders/langchain_unstructured.document_loaders.UnstructuredLoader.html") ];
    [ ("name", str "JSONLoader");
      ("link", str "json");
      ("source", str "JSON files");
      ("apiLink", str "https://api.python.langchain.com/en/latest/document_loaders/langchain_community.document_loaders.json_loader.JSONLoader.html") ];
    [ ("name", str "UnstructuredMarkdownLoader");
      ("link", str "unstructured_markdown");
      ("source", str "Markdown files");
      ("apiLink", str "https://api.python.langchain.com/en/latest/document_loaders/langchain_community.document_loaders.markdown.UnstructuredMarkdownLoader.html") ];
    [ ("name", str "BSHTMLLoader");
      ("link", str "bshtml");
      ("source", str "HTML files");
      ("apiLink", str "https://api.python.langchain.com/en/latest/document_loaders/langchain_community.document_loaders.html_bs.BSHTMLLoader.html") ];
    [ ("name", str "UnstrucutredXMLLoader");
      ("link", str "xml");
      ("source", str "XML files");
      ("apiLink", str "https://api.python.langchain.com/en/latest/document_loaders/langchain_community.document_loaders.xml.UnstructuredXMLLoader.html") ]
  ]
|}.

Definition vectorstores : Category := {|
  link := lit "docs/integrations/vectorstores";
  columns := [
    {| title := str "Vectorstore";
       formatter := fun item => jsx_a (get item "link") [get item "name"] |};
    {| title := str "Delete by ID";
       formatter := fun item => if truthy (get item "deleteById") then VString check_mark else VString cross_mark |};
    {| title := str "Filtering";
       formatter := fun item => if truthy (get item "filtering") then VString check_mark else VString cross_mark |};
    {| title := str "Search by Vector";
       formatter := fun item => if truthy (get item "searchByVector") then VString check_mark else VString cross_mark |};
    {| title := str "Search with score";
       formatter := fun item => if truthy (get item "searchWithScore") then VString check_mark else VString cross_mark |};
    {| title := str "Async";
       formatter := fun item => if truthy (get item "async") then VString check_mark else VString cross_mark |};
    {| title := str "Passes Standard Tests";
       formatter := fun item => if truthy (get item "passesStandardTests") then VString check_mark else VString cross_mark |};
    {| title := str "Multi Tenancy";
       formatter := fun item => if truthy (get item "multiTenancy") then VString check_mark else VString cross_mark |};
    {| title := str "IDs in add Documents";
       formatter := fun item => if truthy (get item "idsInAddDocuments") then VString check_mark else VString cross_mark |};
    {| title := str "Local/Cloud";
       formatter := fun item => if truthy (get item "local") then str "Local" else str "Cloud" |}
  ];
  items := [
    [ ("name", str "AstraDBVectorStore");
      ("link", str "astradb");
      ("deleteById", VBool true);
      ("filtering", VBool true);
      ("searchByVector", VBool true);
      ("searchWithScore", VBool true);
      ("async", VBool true);
      ("passesStandardTests", VBool false);
      ("multiTenancy", VBool false);
      ("local", VBool true);
      ("idsInAddDocuments", VBool false) ];
    [ ("name", str "Chroma");
      ("link", str "chroma");
      ("deleteById", VBool true);
      ("filtering", VBool true);
      ("searchByVector", VBool true);
      ("searchWithScore", VBool true);
      ("async", VBool true);
      ("passesStandardTests", VBool false);
      ("multiTenancy", VBool false);
      ("local", VBool true);
      ("idsInAddDocuments", VBool false) ];
    [ ("name", str "Clickhouse");
      ("link", str "clickhouse");
      ("deleteById", VBool true);
      ("filtering", VBool true);
      ("searchByVector", VBool false);
      ("searchWithScore", VBool true);
      ("async", VBool false);
      ("passesStandardTests", VBool false);
      ("multiTenancy", VBool false);
      ("local", VBool true);
      ("idsInAddDocuments", VBool false) ];
    [ ("name", str "CouchbaseVectorStore");
      ("link", str "couchbase");
      ("deleteById", VBool true);
      ("filtering", VBool true);
      ("searchByVector", VBool false);
      ("searchWithScore", VBool true);
      ("async", VBool true);
      ("passesStandardTests", VBool false);
      ("multiTenancy", VBool false);
      ("local", VBool true);
      ("idsInAddDocuments", VBool false) ];
    [ ("name", str "ElasticsearchStore");
      ("link", str "elasticsearch");
      ("deleteById", VBool true);
      ("filtering", VBool true);
      ("searchByVector", VBool true);
      ("searchWithScore", VBool false);
      ("async", VBool true);
      ("passesStandardTests", VBool false);
      ("multiTenancy", VBool false);
      ("local", VBool true);
      ("idsInAddDocuments", VBool false) ];
    [ ("name", str "FAISS");
      ("link", str "faiss");
      ("deleteById", VBool true);
      ("filtering", VBool true);
      ("searchByVector", VBool true);
      ("searchWithScore", VBool true);
      ("async", VBool true);
      ("passesStandardTests", VBool false);
      ("multiTenancy", VBool false);
      ("local", VBool true);
      ("idsInAddDocuments", VBool false) ];
    [ ("name", str "InMemoryVectorStore");
      ("link", str "in_memory");
      ("deleteById", VBool true);
      ("filtering", VBool true);
      ("searchByVector", VBool false);
      ("searchWithScore", VBool true);
      ("async", VBool true);
      ("passesStandardTests", VBool false);
      ("multiTenancy", VBool false);
      ("local", VBool true);
      ("idsInAddDocuments", VBool false) ];
    [ ("name", str "Milvus");
      ("link", str "milvus");
      ("deleteById", VBool true);
      ("filtering", VBool true);
      ("searchByVector", VBool false);
      ("searchWithScore", VBool true);
      ("async", VBool true);
      ("passesStandardTests", VBool false);
      ("multiTenancy", VBool false);
      ("local", VBool true);
      ("idsInAddDocuments", VBool false) ];
    [ ("name", str "MongoDBAtlasVectorSearch");
      ("link", str "mongodb_atlas");
      ("deleteById", VBool true);
      ("filtering", VBool true);
      ("searchByVector", VBool false);
      ("searchWithScore", VBool false);
      ("async", VBool true);
      ("passesStandardTests", VBool false);
      ("multiTenancy", VBool false);
      ("local", VBool true);
      ("idsInAddDocuments", VBool false) ];
    [ ("name", str "PGVector");
      ("link", str "pg_vector");
      ("deleteById", VBool true);
      ("filtering", VBool true);
      ("searchByVector", VBool true);
      ("searchWithScore", VBool true);
      ("async", VBool true);
      ("passesStandardTests", VBool false);
      ("multiTenancy", VBool false);
      ("local", VBool true);
      ("idsInAddDocuments", VBool false) ];
    [ ("name", str "PineconeVectorStore");
      ("link", str "pinecone");
      ("deleteById", VBool true);
      ("filtering", VBool true);
      ("searchByVector", VBool true);
      ("searchWithScore", VBool false);
      ("async", VBool true);
      ("passesStandardTests", VBool false);
      ("multiTenancy", VBool false);
      ("local", VBool true);
      ("idsInAddDocuments", VBool false) ];
    [ ("name", str "QdrantVectorStore");
      ("link", str "qdrant");
      ("deleteById", VBool true);
      ("filtering", VBool true);
      ("searchByVector", VBool true);
      ("searchWithScore", VBool true);
      ("async", VBool true);
      ("passesStandardTests", VBool false);
      ("multiTenancy", VBool false);
      ("local", VBool true);
      ("idsInAddDocuments", VBool false) ];
    [ ("name", str "Redis");
      ("link", str "redis");
      ("deleteById", VBool true);
      ("filtering", VBool true);
      ("searchByVector", VBool true);
      ("searchWithScore", VBool true);
      ("async", VBool true);
      ("passesStandardTests", VBool false);
      ("multiTenancy", VBool false);
      ("local", VBool true);
      ("idsInAddDocuments", VBool false) ]
  ]
|}.

End Registry.

Definition FEATURE_TABLES : list (jsstring * Category) := [
  (lit "chat", Registry.chat);
  (lit "llms", Registry.llms);
  (lit "text_embedding", Registry.text_embedding);
  (lit "document_retrievers", Registry.document_retrievers);
  (lit "external_retrievers", Registry.external_retrievers);
  (lit "document_loaders", Registry.document_loaders);
  (lit "cloud_provider_loaders", Registry.cloud_provider_loaders);
  (lit "messaging_loaders", Registry.messaging_loaders);
  (lit "productivity_loaders", Registry.productivity_loaders);
  (lit "social_loaders", Registry.social_loaders);
  (lit "webpage_loaders", Registry.webpage_loaders);
  (lit "pdf_loaders", Registry.pdf_loaders);
  (lit "common_loaders", Registry.common_loaders);
  (lit "vectorstores", Registry.vectorstores)
].

Definition DEPRECATED_DOC_IDS : list jsstring := map lit [
  "integrations/chat/anthropic_functions";
  "integrations/chat/ernie";
  "integrations/chat/ollama_functions";
  "integrations/document_loaders/airbyte_cdk";
  "integrations/document_loaders/airbyte_gong";
  "integrations/document_loaders/airbyte_hubspot";
  "integrations/document_loaders/airbyte_json";
  "integrations/document_loaders/airbyte_salesforce";
  "integrations/document_loaders/airbyte_shopify";
  "integrations/document_loaders/airbyte_stripe";
  "integrations/document_loaders/airbyte_typeform";
  "integrations/document_loaders/airbyte_zendesk_support";
  "integrations/llms/anthropic";
  "integrations/text_embedding/ernie"
]%string.

(** ** [FEATURE_TABLES[category]]

    The registry is a plain object: a key it does not own is looked up in
    [Object.prototype], whose members have neither [columns] nor [items];
    any other key gives [undefined]. *)

Definition Object_prototype : list jsstring := map lit [
  "constructor"; "__defineGetter__"; "__defineSetter__"; "hasOwnProperty";
  "__lookupGetter__"; "__lookupSetter__"; "isPrototypeOf";
  "propertyIsEnumerable"; "toString"; "valueOf"; "__proto__";
  "toLocaleString"
]%string.

Inductive property (A : Type) : Type :=
| Own (x : A)
| Inherited
| Undefined.

Arguments Own {A} x.
Arguments Inherited {A}.
Arguments Undefined {A}.

Definition jsstring_eqb (s t : jsstring) : bool := bool_decide (s = t).

Definition own_property (category : jsstring) : option Category :=
  lookup_last jsstring_eqb category FEATURE_TABLES.

Definition FEATURE_TABLES_get (category : jsstring) : property Category :=
  match own_property category with
  | Some cat => Own cat
  | None =>
      if bool_decide (category ∈ Object_prototype) then Inherited else Undefined
  end.

(** ** [toTable] *)

Definition toTable {Item : Type} (columns : list (Column Item))
    (items : list Item) : table :=
  let headers := map title columns in
  {| thead :=
       imap (fun i header =>
               {| th_key := lit "header-" ++ of_index i;
                  th_children := header |}) headers;
     tbody :=
       imap (fun i item =>
               {| tr_key := lit "row-" ++ of_index i;
                  tr_cells :=
                    imap (fun j col =>
                            {| td_key := lit "cell-" ++ of_index i
                                           ++ lit "-" ++ of_index j;
                               td_children := formatter col item |}) columns |})
            items |}.

(** The contents of the header cells and of the body cells, row by row. *)
Definition header_cells (t : table) : list value := map th_children (thead t).
Definition row_cells (r : tr) : list value := map td_children (tr_cells r).
Definition body_cells (t : table) : list (list value) := map row_cells (tbody t).

(** ** [CategoryTable] and [ItemTable] *)

Definition CategoryTable (category : jsstring) : result table :=
  match FEATURE_TABLES_get category with
  | Undefined => Throw (TypeError "columns")
  | Inherited => Throw (TypeError "map")
  | Own cat => Return (toTable (columns cat) (items cat))
  end.

Definition ItemTable (category item : jsstring) : result table :=
  match FEATURE_TABLES_get category with
  | Undefined => Throw (TypeError "items")
  | Inherited => Throw (TypeError "find")
  | Own cat =>
      match find (fun i => strict_equals (get i "name") item) (items cat) with
      | None =>
          Throw (Error (lit "Item " ++ item ++ lit " not found in category "
                          ++ category))
      | Some row => Return (toTable (columns cat) [row])
      end
  end.

(** ** [truncate]

    [(str.length > n) ? str.substring(0, n-1) + '...' : str] *)

Definition truncate (str : jsstring) (n : Z) : jsstring :=
  if Z.of_nat (length str) >? n
  then substring str 0 (n - 1) ++ lit "..."
  else str.

(** The one-character ellipsis U+2026. *)
Definition hellip : jsstring := [8230%N].

(** ** [IndexTable] *)

(** Modelled from the spec: the type declarations of the site generator
    are not part of the sources.  A sidebar entry carries an optional
    [docId], an [href] and a [label]; a document of the registry of
    documents carries an optional description. *)
Record PropSidebarItem : Type := {
  docId : option jsstring;
  href : jsstring;
  label : jsstring
}.

Record PropVersionDoc : Type := { doc_description : option jsstring }.

(** [{...item, description: ...}] *)
Record IndexRow : Type := {
  row_item : PropSidebarItem;
  description : option jsstring
}.

(** The predicate of [items.filter]:
    [!item.docId?.endsWith?.("/index") && !DEPRECATED_DOC_IDS.includes(item.docId)];
    the optional chain is [undefined], hence falsy, on an absent [docId]. *)
Definition survives (item : PropSidebarItem) : bool :=
  negb (match docId item with
        | Some d => endsWith d (lit "/index")
        | None => false
        end)
  && negb (includes DEPRECATED_DOC_IDS (docId item)).

Definition IndexColumns : list (Column IndexRow) := [
  {| title := str "Name";
     formatter := fun item =>
       jsx_a (VString (href (row_item item))) [VString (label (row_item item))] |};
  {| title := str "Description";
     formatter := fun item =>
       VString (truncate (default [] (description item)) 70) |}
].

Section Hooks.

(** The two hooks are the component's inputs: the entries of the current
    sidebar category and the lookup of a document by its id. *)
Variable useCurrentSidebarCategory : list PropSidebarItem.
Variable useDocById : option jsstring -> option PropVersionDoc.

Definition IndexRows : list IndexRow :=
  map (fun item =>
         {| row_item := item;
            description :=
              match useDocById (docId item) with
              | Some doc => doc_description doc
              | None => None
              end |})
      (List.filter survives useCurrentSidebarCategory).

Definition IndexTable : table := toTable IndexColumns IndexRows.

End Hooks.

(** ** The notebook's [parse_final_answer]

    [def parse_final_answer(output: str) -> str:
         return output.split("Final answer: ")[1]] *)

Module Py.

(** A Python string is a sequence of code points; those of an ASCII
    literal are the numbers that [lit] gives. *)
Definition pystr := list N.

Inductive exn : Type :=
| IndexError
| ValueError.

Inductive result (A : Type) : Type :=
| Ok (x : A)
| Raise (e : exn).

Arguments Ok {A} x.
Arguments Raise {A} e.

(** [s[len(sep):]] when [s.startswith(sep)]. *)
Fixpoint strip_prefix (sep s : pystr) : option pystr :=
  match sep, s with
  | [], _ => Some s
  | c :: sep', d :: s' =>
      if bool_decide (c = d) then strip_prefix sep' s' else None
  | _ :: _, [] => None
  end.

(** One more character in front of the piece being read. *)
Definition cons_head (c : N) (pieces : list pystr) : list pystr :=
  match pieces with
  | [] => [[c]]
  | p :: ps => (c :: p) :: ps
  end.

Definition inspect {A : Type} (x : A) : {y : A | x = y} := exist _ x eq_refl.

(** [s.split(sep)] for the separator [c0 :: sep']: the string is read from
    the left; where the separator starts a piece ends and the reading
    goes on behind the separator, so that occurrences do not overlap. *)
Equations? split_at (c0 : N) (sep' s : pystr) : list pystr
  by wf (length s) lt :=
split_at c0 sep' [] := [[]];
split_at c0 sep' (c :: s')
  with inspect (strip_prefix (c0 :: sep') (c :: s')) := {
  | exist _ (Some rest) Hstrip => [] :: split_at c0 sep' rest
  | exist _ None _ => cons_head c (split_at c0 sep' s') }.
Proof.
  assert (forall sep s r,
            strip_prefix sep s = Some r -> (length r <= length s)%nat) as Hlen.
  { induction sep as [|x sep IH]; intros [|y s] r; cbn; try discriminate.
    - intros [= <-]. cbn. lia.
    - intros [= <-]. cbn. lia.
    - destruct (bool_decide (x = y)); [|discriminate]. intros Hr%IH. lia. }
  destruct (bool_decide (c0 = c)); [|discriminate].
  apply Hlen in Hstrip. cbn. lia.
Defined.

(** [s.split(sep)]; an empty separator is a [ValueError]. *)
Definition split (s sep : pystr) : result (list pystr) :=
  match sep with
  | [] => Raise ValueError
  | c0 :: sep' => Ok (split_at c0 sep' s)
  end.

Definition final_answer_marker : pystr := lit "Final answer: ".

Definition parse_final_answer (output : pystr) : result pystr :=
  match split output final_answer_marker with
  | Raise e => Raise e
  | Ok pieces =>
      match pieces !! 1%nat with
      | Some answer => Ok answer
      | None => Raise IndexError
      end
  end.

End Py.

(** ** Vocabulary of the statements *)

(** The [name] of an item when it is a string. *)
Definition item_name (i : obj) : option jsstring :=
  match get i "name" with
  | VString s => Some s
  | _ => None
  end.

(** Distinct names, and a string for every name. *)
Definition named_apart (its : list obj) : Prop :=
  NoDup (map item_name its) /\ Forall (fun i => is_Some (item_name i)) its.

(** The entries the index leaves out, in the specification's words: the
    [docId] ends with ["/index"], or it is on the list of deprecated ids. *)
Definition excluded (item : PropSidebarItem) : Prop :=
  exists d, docId item = Some d
            /\ (lit "/index" `suffix_of` d \/ In d DEPRECATED_DOC_IDS).

(** The message of the error [ItemTable] throws. *)
Definition item_not_found (item category : jsstring) : jsstring :=
  lit "Item " ++ item ++ lit " not found in category " ++ category.

(** [sep] occurs in [s]. *)
Definition occurs (sep s : list N) : Prop :=
  exists pre post, s = pre ++ sep ++ post.

(** [sep.join(pieces)] *)
Fixpoint join (sep : list N) (pieces : list (list N)) : list N :=
  match pieces with
  | [] => []
  | p :: ps =>
      match ps with
      | [] => p
      | _ :: _ => p ++ sep ++ join sep ps
      end
  end.

(** A value with no [undefined] in it: neither the value itself, nor a
    property of an element, nor a child. *)
Fixpoint defined (v : value) : bool :=
  match v with
  | VUndefined => false
  | VBool _ | VString _ => true
  | VElement _ props children =>
      forallb (fun kv => defined (snd kv)) props && forallb defined children
  | VFragment children => forallb defined children
  end.

(** Every title and every formatted cell of a category is [defined]. *)
Definition renders_defined (cat : Category) : bool :=
  forallb (fun col => defined (title col)) (columns cat)
  && forallb (fun item =>
                forallb (fun col => defined (formatter col item)) (columns cat))
             (items cat).

(** * Properties *)

(** ** The components on small inputs *)

Section Examples.

Example endsWith_index :
  endsWith (lit "integrations/chat/index") (lit "/index") = true
  /\ endsWith (lit "index") (lit "/index") = false
  /\ endsWith (lit "integrations/chat/indexes") (lit "/index") = false.
Proof. repeat split; vm_compute; reflexivity. Qed.

Example substring_swaps_and_clamps :
  substring (lit "documents") 4 1 = lit "ocu"
  /\ substring (lit "documents") (-3) 20 = lit "documents".
Proof. split; vm_compute; reflexivity. Qed.

Example CategoryTable_document_loaders :
  CategoryTable (lit "document_loaders")
  = Return {| thead := []; tbody := [] |}.
Proof. vm_compute. reflexivity. Qed.

Example ItemTable_Reddit :
  body_cells <$> match ItemTable (lit "social_loaders") (lit "Reddit") with
                 | Return t => Some t
                 | Throw _ => None
                 end
  = Some [[jsx_a (str "RedditPostsLoader") [str "Reddit"];
           jsx_a (str "https://api.python.langchain.com/en/latest/document_loaders/langchain_community.document_loaders.reddit.RedditPostsLoader.html")
                 [str "RedditPostsLoader"]]].
Proof. vm_compute. reflexivity. Qed.

Example IndexTable_of_four :
  body_cells
    (IndexTable
       [ {| docId := Some (lit "integrations/chat/index");
            href := lit "/docs/integrations/chat/";
            label := lit "Chat models" |};
         {| docId := Some (lit "integrations/chat/openai");
            href := lit "/docs/integrations/chat/openai/";
            label := lit "ChatOpenAI" |};
         {| docId := Some (lit "integrations/chat/ernie");
            href := lit "/docs/integrations/chat/ernie/";
            label := lit "ErnieBotChat" |};
         {| docId := None;
            href := lit "/docs/integrations/chat/google/";
            label := lit "Google" |} ]
       (fun id =>
          if bool_decide (id = Some (lit "integrations/chat/openai"))
          then Some {| doc_description := Some (lit "OpenAI chat models") |}
          else None))
  = [ [jsx_a (str "/docs/integrations/chat/openai/") [str "ChatOpenAI"];
       str "OpenAI chat models"];
      [jsx_a (str "/docs/integrations/chat/google/") [str "Google"];
       str ""] ].
Proof. vm_compute. reflexivity. Qed.

End Examples.

(** ** [truncate] *)

Section Truncate.

Lemma substring_prefix (s : jsstring) (k : Z) :
  0 <= k -> substring s 0 k = take (Z.to_nat k) s.
Proof.
  intros Hk. unfold substring.
  set (len := Z.of_nat (length s)).
  assert (0 <= len) by (subst len; lia).
  destruct (Z.le_gt_cases k len) as [Hle|Hgt].
  - replace (Z.max (Z.min (Z.max 0 0) len) (Z.min (Z.max k 0) len)
             - Z.min (Z.min (Z.max 0 0) len) (Z.min (Z.max k 0) len)) with k by lia.
    replace (Z.to_nat (Z.min (Z.min (Z.max 0 0) len) (Z.min (Z.max k 0) len)))
      with 0%nat by lia.
    by rewrite drop_0.
  - replace (Z.max (Z.min (Z.max 0 0) len) (Z.min (Z.max k 0) len)
             - Z.min (Z.min (Z.max 0 0) len) (Z.min (Z.max k 0) len)) with len by lia.
    replace (Z.to_nat (Z.min (Z.min (Z.max 0 0) len) (Z.min (Z.max k 0) len)))
      with 0%nat by lia.
    rewrite drop_0. subst len. rewrite Nat2Z.id.
    rewrite (take_ge s (length s)) by lia.
    rewrite (take_ge s (Z.to_nat k)) by lia. reflexivity.
Qed.

Lemma truncate_short (s : jsstring) :
  (length s <= 70)%nat -> truncate s 70 = s.
Proof.
  intros H. unfold truncate.
  destruct (Z.gtb_spec (Z.of_nat (length s)) 70); [lia | reflexivity].
Qed.

Lemma truncate_long (s : jsstring) :
  (70 < length s)%nat -> truncate s 70 = take 69 s ++ lit "...".
Proof.
  intros H. unfold truncate.
  destruct (Z.gtb_spec (Z.of_nat (length s)) 70); [| lia].
  rewrite substring_prefix by lia. reflexivity.
Qed.

End Truncate.

Section TruncateClaims.

Lemma truncate_long_length (s : jsstring) :
  (70 < length s)%nat -> length (truncate s 70) = 72%nat.
Proof.
  intros H. rewrite truncate_long by exact H.
  rewrite length_app, length_take.
  change (length (lit "...")) with 3%nat. lia.
Qed.

(** C1: for every string S, [truncate S 70] is S itself when S has at most
    70 code units, and otherwise [substring S 0 (70 - 1)], which is the
    first 69 code units of S, followed by the marker ['...'] once, at the
    end. *)
Theorem truncate_70_spec (S : jsstring) :
  truncate S 70
  = (if (length S <=? 70)%nat then S
     else substring S 0 (70 - 1) ++ lit "...")
  /\ substring S 0 (70 - 1) = take 69 S.
Proof.
  split.
  - destruct (Nat.leb_spec (length S) 70) as [Hle|Hgt].
    + by apply truncate_short.
    + rewrite truncate_long by exact Hgt.
      by rewrite substring_prefix by lia.
  - by rewrite substring_prefix by lia.
Qed.

(** C2, as the code has it: every string of exactly 70 code units is
    returned unchanged, and every string of exactly 71 is cut to its first
    69 code units and given the three full stops ['...'], 72 code units in
    all; so ["a" * 70] comes back as it is and ["a" * 71] becomes
    ["a" * 69 + "..."], for any character in place of ["a"]. *)
Theorem truncate_at_the_limit (S70 S71 : jsstring) :
  length S70 = 70%nat ->
  length S71 = 71%nat ->
  truncate S70 70 = S70
  /\ truncate S71 70 = take 69 S71 ++ lit "..."
  /\ take 69 S71 = substring S71 0 (70 - 1)
  /\ length (truncate S71 70) = 72%nat
  /\ forall c : code_unit,
       truncate (replicate 70 c) 70 = replicate 70 c
       /\ truncate (replicate 71 c) 70 = replicate 69 c ++ lit "..."
       /\ length (truncate (replicate 71 c) 70) = 72%nat.
Proof.
  intros H70 H71.
  split; [apply truncate_short; lia|].
  split; [apply truncate_long; lia|].
  split; [by rewrite substring_prefix by lia|].
  split; [apply truncate_long_length; lia|].
  intros c. split; [|split].
  - apply truncate_short. by rewrite length_replicate.
  - rewrite truncate_long by (rewrite length_replicate; lia).
    by rewrite take_replicate.
  - apply truncate_long_length. rewrite length_replicate. lia.
Qed.

Lemma truncate_at_the_limit_a :
  truncate (replicate 70 97%N) 70 = replicate 70 97%N
  /\ truncate (replicate 71 97%N) 70
     = take 69 (replicate 71 97%N) ++ lit "..."
  /\ take 69 (replicate 71 97%N) = substring (replicate 71 97%N) 0 (70 - 1)
  /\ length (truncate (replicate 71 97%N) 70) = 72%nat
  /\ forall c : code_unit,
       truncate (replicate 70 c) 70 = replicate 70 c
       /\ truncate (replicate 71 c) 70 = replicate 69 c ++ lit "..."
       /\ length (truncate (replicate 71 c) 70) = 72%nat.
Proof.
  apply (truncate_at_the_limit (replicate 70 97%N) (replicate 71 97%N));
    reflexivity.
Defined.

(** C2, as stated, fails on ["a" * 71]: the result does not end in the
    one-character ellipsis and is not 70 code units long. *)
Lemma truncate_71_is_not_70_long :
  truncate (replicate 71 97%N) 70 <> replicate 69 97%N ++ hellip
  /\ length (truncate (replicate 71 97%N) 70) <> 70%nat.
Proof. split; vm_compute; discriminate. Qed.

(** C10: [truncate] with limit 70 is idempotent, although a truncated
    result has 72 code units: its first 69 are those of the argument. *)
Theorem truncate_idempotent (S : jsstring) :
  truncate (truncate S 70) 70 = truncate S 70.
Proof.
  destruct (Nat.le_gt_cases (length S) 70) as [Hle|Hgt].
  - rewrite (truncate_short S) by exact Hle. by apply truncate_short.
  - rewrite (truncate_long (truncate S 70))
      by (rewrite truncate_long_length by exact Hgt; lia).
    rewrite truncate_long by exact Hgt.
    f_equal. rewrite take_app_le by (rewrite length_take; lia).
    by rewrite take_take.
Qed.

End TruncateClaims.

(** ** [toTable] *)

Section Table.

Context {Item : Type}.

Lemma map_imap {A B C : Type} (f : B -> C) (g : nat -> A -> B) (h : A -> C)
    (l : list A) :
  (forall i x, f (g i x) = h x) -> map f (imap g l) = map h l.
Proof.
  revert g. induction l as [|x l IH]; intros g Hg; [reflexivity|].
  cbn. rewrite Hg. f_equal. apply IH. intros i y. apply Hg.
Qed.

Lemma header_cells_toTable (cols : list (Column Item)) (its : list Item) :
  header_cells (toTable cols its) = map title cols.
Proof.
  unfold header_cells, toTable. cbn [thead].
  rewrite (map_imap _ _ id) by reflexivity. apply map_id.
Qed.

Lemma body_cells_toTable (cols : list (Column Item)) (its : list Item) :
  body_cells (toTable cols its)
  = map (fun item => map (fun col => formatter col item) cols) its.
Proof.
  unfold body_cells, toTable. cbn [tbody].
  apply map_imap. intros i item. unfold row_cells. cbn [tr_cells].
  by apply map_imap.
Qed.

Lemma tbody_toTable_length (cols : list (Column Item)) (its : list Item) :
  length (tbody (toTable cols its)) = length its.
Proof. unfold toTable. cbn [tbody]. apply length_imap. Qed.

Lemma tbody_toTable_widths (cols : list (Column Item)) (its : list Item) :
  Forall (fun r => length (tr_cells r) = length cols) (tbody (toTable cols its)).
Proof.
  unfold toTable. cbn [tbody]. apply Forall_forall. intros r Hr.
  apply elem_of_lookup_imap_1 in Hr as (i & item & -> & _).
  cbn [tr_cells]. apply length_imap.
Qed.

Lemma thead_toTable_length (cols : list (Column Item)) (its : list Item) :
  length (thead (toTable cols its)) = length cols.
Proof. unfold toTable. cbn [thead]. by rewrite length_imap, length_map. Qed.

End Table.

(** ** The registry *)

Section RegistryFacts.

Lemma lookup_last_In {K V : Type} (eqb : K -> K -> bool) (k : K)
    (l : list (K * V)) (v : V) :
  (forall x y, eqb x y = true -> x = y) ->
  lookup_last eqb k l = Some v -> In (k, v) l.
Proof.
  intros Heqb. induction l as [|[k' v'] l IH]; cbn; [discriminate|].
  destruct (lookup_last eqb k l) as [w|].
  - intros [= ->]. right. by apply IH.
  - destruct (eqb k k') eqn:E; [|discriminate].
    intros [= ->]. left. by rewrite (Heqb _ _ E).
Qed.

Lemma own_property_In (category : jsstring) (cat : Category) :
  own_property category = Some cat -> In (category, cat) FEATURE_TABLES.
Proof.
  apply lookup_last_In. intros x y H. by apply bool_decide_eq_true in H.
Qed.

Lemma FEATURE_TABLES_get_own (category : jsstring) (cat : Category) :
  own_property category = Some cat -> FEATURE_TABLES_get category = Own cat.
Proof. intros H. unfold FEATURE_TABLES_get. by rewrite H. Qed.

End RegistryFacts.

(** C4: for a category of the registry, [CategoryTable] returns a table
    with one body row per item, whose header holds the column titles in
    order, and whose rows hold, in column order, one cell per column: the
    column's formatter applied to the row's item. *)
Theorem CategoryTable_renders (category : jsstring) (cat : Category) :
  own_property category = Some cat ->
  exists t,
    CategoryTable category = Return t
    /\ length (tbody t) = length (items cat)
    /\ header_cells t = map title (columns cat)
    /\ Forall (fun r => length (tr_cells r) = length (columns cat)) (tbody t)
    /\ body_cells t
       = map (fun item => map (fun col => formatter col item) (columns cat))
             (items cat).
Proof.
  intros Hown. exists (toTable (columns cat) (items cat)).
  unfold CategoryTable. rewrite (FEATURE_TABLES_get_own _ _ Hown).
  split; [reflexivity|].
  split; [apply tbody_toTable_length|].
  split; [apply header_cells_toTable|].
  split; [apply tbody_toTable_widths|apply body_cells_toTable].
Qed.

Lemma CategoryTable_renders_webpage_loaders :
  exists t,
    CategoryTable (lit "webpage_loaders") = Return t
    /\ length (tbody t) = length (items Registry.webpage_loaders)
    /\ header_cells t = map title (columns Registry.webpage_loaders)
    /\ Forall (fun r => length (tr_cells r)
                        = length (columns Registry.webpage_loaders)) (tbody t)
    /\ body_cells t
       = map (fun item => map (fun col => formatter col item)
                              (columns Registry.webpage_loaders))
             (items Registry.webpage_loaders).
Proof.
  apply (CategoryTable_renders (lit "webpage_loaders") Registry.webpage_loaders).
  vm_compute. reflexivity.
Defined.

(** ** Lookup of an item by its name *)

Section ItemLookup.

Lemma strict_equals_true (v : value) (s : jsstring) :
  strict_equals v s = true <-> v = VString s.
Proof.
  destruct v; cbn; try (split; [discriminate|intros [=]]).
  rewrite bool_decide_eq_true. split; [by intros ->|by intros [=]].
Qed.

Lemma item_name_Some (i : obj) (s : jsstring) :
  item_name i = Some s <-> get i "name" = VString s.
Proof.
  unfold item_name. destruct (get i "name"); split; intros [=]; by subst.
Qed.

Lemma registry_named_apart :
  Forall (fun kc => named_apart (items kc.2)) FEATURE_TABLES.
Proof.
  unfold named_apart. apply (bool_decide_eq_true_1 _).
  vm_compute. reflexivity.
Qed.

Lemma own_property_named_apart (category : jsstring) (cat : Category) :
  own_property category = Some cat -> named_apart (items cat).
Proof.
  intros H%own_property_In.
  exact (proj1 (List.Forall_forall _ _) registry_named_apart _ H).
Qed.

Lemma find_by_name (its : list obj) (I : obj) (name : jsstring) :
  NoDup (map item_name its) -> In I its -> item_name I = Some name ->
  find (fun i => strict_equals (get i "name") name) its = Some I.
Proof.
  intros Hnd Hin Hname. induction its as [|x its IH]; [destruct Hin|].
  cbn in Hnd. apply NoDup_cons in Hnd as [Hx Hnd]. cbn [find].
  destruct (strict_equals (get x "name") name) eqn:E.
  - apply strict_equals_true, item_name_Some in E.
    destruct Hin as [->|Hin]; [reflexivity|]. exfalso. apply Hx.
    rewrite E, <- Hname. apply list_elem_of_In, in_map, Hin.
  - destruct Hin as [->|Hin]; [|by apply IH].
    apply item_name_Some, strict_equals_true in Hname. congruence.
Qed.

Lemma find_no_name (its : list obj) (name : jsstring) :
  Forall (fun i => get i "name" <> VString name) its ->
  find (fun i => strict_equals (get i "name") name) its = None.
Proof.
  induction 1 as [|x its Hx _ IH]; [reflexivity|]. cbn [find].
  destruct (strict_equals (get x "name") name) eqn:E; [|exact IH].
  by apply strict_equals_true in E.
Qed.

Lemma matches_at_most_one (its : list obj) (name : jsstring) :
  NoDup (map item_name its) ->
  (length (List.filter (fun i => strict_equals (get i "name") name) its)
   <= 1)%nat.
Proof.
  induction its as [|x its IH]; cbn; [lia|].
  intros [Hx Hnd]%NoDup_cons. specialize (IH Hnd).
  destruct (strict_equals (get x "name") name) eqn:E; [|exact IH].
  apply strict_equals_true, item_name_Some in E.
  assert (List.filter (fun i => strict_equals (get i "name") name) its = [])
    as ->; [|cbn; lia].
  destruct (List.filter _ its) as [|y l] eqn:F; [reflexivity|]. exfalso.
  assert (In y (List.filter
                  (fun i => strict_equals (get i "name") name) its)) as Hy
    by (rewrite F; by left).
  apply filter_In in Hy as [Hy Hn].
  apply strict_equals_true, item_name_Some in Hn.
  apply Hx. rewrite E, <- Hn. apply list_elem_of_In, in_map, Hy.
Qed.

End ItemLookup.

Section ItemClaims.

Lemma NoDup_names_fields (its : list obj) :
  NoDup (map item_name its) -> NoDup (map (fun i => get i "name") its).
Proof.
  induction its as [|x its IH]; cbn; [constructor|].
  intros [Hx Hnd]%NoDup_cons. apply NoDup_cons. split; [|by apply IH].
  intros Hin%list_elem_of_In%in_map_iff. destruct Hin as (y & Hy & Hin).
  apply Hx, list_elem_of_In, in_map_iff. exists y. split; [|exact Hin].
  unfold item_name. by rewrite Hy.
Qed.

(** C9: in every category of the registry the [name] fields of the items
    are pairwise distinct, so that a name matches at most one item of the
    category. *)
Theorem names_unique_per_category :
  Forall (fun kc =>
            NoDup (map (fun i => get i "name") (items kc.2))
            /\ forall name,
                 (length (List.filter
                            (fun i => strict_equals (get i "name") name)
                            (items kc.2)) <= 1)%nat)
         FEATURE_TABLES.
Proof.
  eapply List.Forall_impl; [|exact registry_named_apart].
  intros kc [Hnd _]. split.
  - by apply NoDup_names_fields.
  - intros name. by apply matches_at_most_one.
Qed.

(** C5: for a category of the registry and an item I of its list, the
    [name] of I is a string, and [ItemTable] at that name returns a table
    of exactly one body row, whose cells are the formatters of the
    category's columns applied to I, in column order. *)
Theorem ItemTable_renders (category : jsstring) (cat : Category) (I : obj) :
  own_property category = Some cat ->
  In I (items cat) ->
  exists name t,
    get I "name" = VString name
    /\ ItemTable category name = Return t
    /\ length (tbody t) = 1%nat
    /\ header_cells t = map title (columns cat)
    /\ body_cells t = [map (fun col => formatter col I) (columns cat)].
Proof.
  intros Hown Hin.
  destruct (own_property_named_apart _ _ Hown) as [Hnd Hall].
  destruct (proj1 (List.Forall_forall _ _) Hall _ Hin) as [name Hname].
  exists name, (toTable (columns cat) [I]).
  split; [by apply item_name_Some|].
  unfold ItemTable. rewrite (FEATURE_TABLES_get_own _ _ Hown).
  rewrite (find_by_name _ I) by assumption.
  split; [reflexivity|].
  split; [apply tbody_toTable_length|].
  split; [apply header_cells_toTable|].
  exact (body_cells_toTable (columns cat) [I]).
Qed.

Lemma ItemTable_renders_Wikipedia :
  exists name t,
    get (default [] (items Registry.external_retrievers !! 2%nat)) "name"
    = VString name
    /\ ItemTable (lit "external_retrievers") name = Return t
    /\ length (tbody t) = 1%nat
    /\ header_cells t = map title (columns Registry.external_retrievers)
    /\ body_cells t
       = [map (fun col =>
                 formatter col
                   (default [] (items Registry.external_retrievers !! 2%nat)))
              (columns Registry.external_retrievers)].
Proof.
  apply (ItemTable_renders (lit "external_retrievers")
           Registry.external_retrievers).
  - vm_compute. reflexivity.
  - cbn. right. right. left. reflexivity.
Defined.

(** C6: for a category of the registry and a name that none of the
    category's items has, [ItemTable] throws the error "Item ... not found
    in category ..." and returns no table; ["nonexistent"] is such a name
    in every category, and [ItemTable] throws that error at it. *)
Theorem ItemTable_not_found (category : jsstring) (cat : Category)
    (name : jsstring) :
  own_property category = Some cat ->
  Forall (fun i => get i "name" <> VString name) (items cat) ->
  ItemTable category name = Throw (Error (item_not_found name category))
  /\ Forall (fun i => get i "name" <> VString (lit "nonexistent")) (items cat)
  /\ ItemTable category (lit "nonexistent")
     = Throw (Error (item_not_found (lit "nonexistent") category)).
Proof.
  intros Hown Hname.
  assert (forall n, Forall (fun i => get i "name" <> VString n) (items cat) ->
            ItemTable category n = Throw (Error (item_not_found n category)))
    as Hgen.
  { intros n Hn. unfold ItemTable.
    rewrite (FEATURE_TABLES_get_own _ _ Hown).
    by rewrite (find_no_name _ _ Hn). }
  assert (Forall (fun i => get i "name" <> VString (lit "nonexistent"))
            (items cat)) as Hnone.
  { assert (Forall (fun kc =>
              Forall (fun i => item_name i <> Some (lit "nonexistent"))
                     (items kc.2)) FEATURE_TABLES) as Hall
      by (apply (bool_decide_eq_true_1 _); vm_compute; reflexivity).
    apply own_property_In in Hown.
    pose proof (proj1 (List.Forall_forall _ _) Hall _ Hown) as Hcat.
    eapply List.Forall_impl; [|exact Hcat].
    intros i Hi Hget. apply Hi. by apply item_name_Some. }
  split; [by apply Hgen|]. split; [exact Hnone|by apply Hgen].
Qed.

Lemma ItemTable_not_found_social_loaders :
  ItemTable (lit "social_loaders") (lit "Mastodon")
  = Throw (Error (item_not_found (lit "Mastodon") (lit "social_loaders")))
  /\ Forall (fun i => get i "name" <> VString (lit "nonexistent"))
            (items Registry.social_loaders)
  /\ ItemTable (lit "social_loaders") (lit "nonexistent")
     = Throw (Error (item_not_found (lit "nonexistent")
                       (lit "social_loaders"))).
Proof.
  apply (ItemTable_not_found (lit "social_loaders") Registry.social_loaders).
  - vm_compute. reflexivity.
  - repeat constructor; vm_compute; discriminate.
Defined.

(** C7: for a key that the registry does not own, [CategoryTable] throws
    a [TypeError] and returns no table, and so does [ItemTable], whatever
    the item, before any item is looked up: the error is not the one of an
    item that is not found.  ["nonexistent"] is such a key. *)
Theorem unknown_category_throws (category : jsstring) :
  own_property category = None ->
  (exists p, CategoryTable category = Throw (TypeError p))
  /\ (forall item, exists p, ItemTable category item = Throw (TypeError p))
  /\ own_property (lit "nonexistent") = None
  /\ CategoryTable (lit "nonexistent") = Throw (TypeError "columns")
  /\ (forall item,
        ItemTable (lit "nonexistent") item = Throw (TypeError "items")).
Proof.
  intros Hown.
  split; [|split; [|split; [|split]]].
  - unfold CategoryTable, FEATURE_TABLES_get. rewrite Hown.
    case_bool_decide; eauto.
  - intros item. unfold ItemTable, FEATURE_TABLES_get. rewrite Hown.
    case_bool_decide; eauto.
  - vm_compute. reflexivity.
  - vm_compute. reflexivity.
  - intros item. unfold ItemTable.
    assert (FEATURE_TABLES_get (lit "nonexistent") = Undefined) as ->
      by (vm_compute; reflexivity).
    reflexivity.
Qed.

Lemma unknown_category_throws_on_prototype_key :
  (exists p, CategoryTable (lit "constructor") = Throw (TypeError p))
  /\ (forall item,
        exists p, ItemTable (lit "constructor") item = Throw (TypeError p))
  /\ own_property (lit "nonexistent") = None
  /\ CategoryTable (lit "nonexistent") = Throw (TypeError "columns")
  /\ (forall item,
        ItemTable (lit "nonexistent") item = Throw (TypeError "items")).
Proof.
  apply (unknown_category_throws (lit "constructor")).
  vm_compute. reflexivity.
Defined.

End ItemClaims.

(** ** [IndexTable] *)

Section Index.

Lemma endsWith_suffix (s t : jsstring) :
  endsWith s t = true <-> t `suffix_of` s.
Proof.
  unfold endsWith. destruct (Nat.ltb_spec (length s) (length t)) as [Hlt|Hle].
  - split; [discriminate|]. intros [k ->]. rewrite length_app in Hlt. lia.
  - rewrite bool_decide_eq_true. split.
    + intros H. exists (take (length s - length t) s).
      rewrite <- H at 2. by rewrite take_drop.
    + intros [k ->]. rewrite length_app.
      replace (length k + length t - length t)%nat with (length k) by lia.
      apply drop_app_length.
Qed.

Lemma includes_In (l : list jsstring) (d : jsstring) :
  includes l (Some d) = true <-> In d l.
Proof.
  cbn. rewrite existsb_exists. split.
  - intros (y & Hy & E). apply bool_decide_eq_true in E. by subst.
  - intros H. exists d. split; [exact H|]. by apply bool_decide_eq_true.
Qed.

Lemma survives_false (item : PropSidebarItem) :
  survives item = false <-> excluded item.
Proof.
  unfold survives, excluded. destruct (docId item) as [d|].
  - rewrite andb_false_iff, !negb_false_iff, endsWith_suffix, includes_In.
    split.
    + intros H. by exists d.
    + by intros (d' & [= <-] & H).
  - cbn. split; [discriminate|]. by intros (d & [=] & _).
Qed.

Lemma survives_true (item : PropSidebarItem) :
  survives item = true <-> ~ excluded item.
Proof.
  rewrite <- survives_false. destruct (survives item); split; congruence.
Qed.

Lemma filter_sublist {A : Type} (f : A -> bool) (l : list A) :
  List.filter f l `sublist_of` l.
Proof.
  induction l as [|x l IH]; cbn; [constructor|].
  destruct (f x); by constructor.
Qed.

Lemma row_item_IndexRows (entries : list PropSidebarItem)
    (useDocById : option jsstring -> option PropVersionDoc) :
  map row_item (IndexRows entries useDocById) = List.filter survives entries.
Proof.
  unfold IndexRows. rewrite List.map_map. cbn [row_item]. apply map_id.
Qed.

(** C3: the rows of [IndexTable] are, one for one and in their order, the
    entries that are left when those are removed whose [docId] ends with
    ["/index"] or is on the list of deprecated ids, wherever they stand;
    the order is that of the input. *)
Theorem IndexTable_filters (entries : list PropSidebarItem)
    (useDocById : option jsstring -> option PropVersionDoc) :
  let rows := IndexRows entries useDocById in
  map row_item rows = List.filter survives entries
  /\ (forall e, survives e = false <-> excluded e)
  /\ (forall e, In e (map row_item rows) <-> In e entries /\ ~ excluded e)
  /\ map row_item rows `sublist_of` entries
  /\ length (tbody (IndexTable entries useDocById)) = length rows
  /\ body_cells (IndexTable entries useDocById)
     = map (fun r =>
              [jsx_a (VString (href (row_item r)))
                     [VString (label (row_item r))];
               VString (truncate (default [] (description r)) 70)])
           rows.
Proof.
  intros rows. subst rows.
  rewrite row_item_IndexRows.
  split; [reflexivity|].
  split; [exact survives_false|].
  split; [|split; [apply filter_sublist|split]].
  - intros e. by rewrite filter_In, survives_true.
  - apply tbody_toTable_length.
  - unfold IndexTable. by rewrite body_cells_toTable.
Qed.

(** C8: when the lookup of documents gives no description for the [docId]
    of an entry that is kept, be it no document or a document without a
    description, [IndexTable] still renders the entry's row, with the
    empty string in the description cell. *)
Theorem missing_description_is_empty (entries : list PropSidebarItem)
    (useDocById : option jsstring -> option PropVersionDoc)
    (i : nat) (e : PropSidebarItem) :
  List.filter survives entries !! i = Some e ->
  (forall doc, useDocById (docId e) = Some doc -> doc_description doc = None) ->
  exists r,
    tbody (IndexTable entries useDocById) !! i = Some r
    /\ row_cells r = [jsx_a (VString (href e)) [VString (label e)]; VString []].
Proof.
  intros Hi Hdoc. unfold IndexTable, toTable, IndexRows. cbn [tbody].
  rewrite list_lookup_imap.
  change (map ?f ?l) with (f <$> l). rewrite list_lookup_fmap, Hi.
  cbn. eexists. split; [reflexivity|].
  unfold row_cells. cbn.
  destruct (useDocById (docId e)) as [doc|] eqn:E.
  - rewrite (Hdoc doc) by reflexivity. reflexivity.
  - reflexivity.
Qed.

Lemma missing_description_is_empty_without_document :
  exists r,
    tbody (IndexTable
             [ {| docId := Some (lit "integrations/chat/index");
                  href := lit "/docs/integrations/chat/";
                  label := lit "Chat models" |};
               {| docId := Some (lit "integrations/chat/openai");
                  href := lit "/docs/integrations/chat/openai/";
                  label := lit "ChatOpenAI" |} ]
             (fun _ => None)) !! 0%nat = Some r
    /\ row_cells r
       = [jsx_a (VString (lit "/docs/integrations/chat/openai/"))
                [VString (lit "ChatOpenAI")];
          VString []].
Proof.
  apply (missing_description_is_empty _ (fun _ => None) 0
           {| docId := Some (lit "integrations/chat/openai");
              href := lit "/docs/integrations/chat/openai/";
              label := lit "ChatOpenAI" |}).
  - vm_compute. reflexivity.
  - intros doc. discriminate.
Defined.

End Index.

(** * Further properties *)

(** ** [truncate] at any limit *)

Section TruncateAnyLimit.

Lemma truncate_cut (s : jsstring) (n : Z) :
  n < Z.of_nat (length s) ->
  truncate s n = take (Z.to_nat (n - 1)) s ++ lit "...".
Proof.
  intros H. unfold truncate.
  destruct (Z.gtb_spec (Z.of_nat (length s)) n); [|lia].
  destruct (Z.le_gt_cases 0 (n - 1)) as [Hn|Hn].
  - by rewrite substring_prefix.
  - replace (Z.to_nat (n - 1)) with 0%nat by lia.
    unfold substring.
    replace (Z.to_nat
               (Z.max (Z.min (Z.max 0 0) (Z.of_nat (length s)))
                      (Z.min (Z.max (n - 1) 0) (Z.of_nat (length s)))
                - Z.min (Z.min (Z.max 0 0) (Z.of_nat (length s)))
                        (Z.min (Z.max (n - 1) 0) (Z.of_nat (length s)))))
      with 0%nat by lia.
    reflexivity.
Qed.

Lemma truncate_keep (s : jsstring) (n : Z) :
  Z.of_nat (length s) <= n -> truncate s n = s.
Proof.
  intros H. unfold truncate.
  destruct (Z.gtb_spec (Z.of_nat (length s)) n); [lia|reflexivity].
Qed.

(** X1: [truncate] is idempotent at every limit [n], positive or not:
    truncating a truncated string changes nothing. *)
Theorem truncate_idempotent_any_limit (s : jsstring) (n : Z) :
  truncate (truncate s n) n = truncate s n.
Proof.
  destruct (Z.le_gt_cases (Z.of_nat (length s)) n) as [Hle|Hgt].
  - rewrite (truncate_keep s n) by exact Hle. by apply truncate_keep.
  - rewrite (truncate_cut s n) by lia.
    assert (length (take (Z.to_nat (n - 1)) s) = Z.to_nat (n - 1)) as Hlen
      by (rewrite length_take; lia).
    rewrite truncate_cut.
    + rewrite take_app_le by lia. rewrite take_take. f_equal.
      f_equal. lia.
    + rewrite length_app, Hlen. change (length (lit "...")) with 3%nat. lia.
Qed.

(** X2: at an integral limit [n >= 1] a string of at most [n] code units
    is returned as it is, and a longer one becomes its first [n - 1] code
    units followed by ['...']: [n + 2] code units, two more than the
    limit. *)
Theorem truncate_length (s : jsstring) (n : Z) :
  1 <= n ->
  truncate s n
  = (if Z.of_nat (length s) >? n
     then take (Z.to_nat (n - 1)) s ++ lit "..."
     else s)
  /\ Z.of_nat (length (truncate s n))
     = (if Z.of_nat (length s) >? n then n + 2 else Z.of_nat (length s)).
Proof.
  intros Hn. destruct (Z.gtb_spec (Z.of_nat (length s)) n) as [Hgt|Hle].
  - rewrite truncate_cut by lia. split; [reflexivity|].
    rewrite length_app, length_take.
    change (length (lit "...")) with 3%nat. lia.
  - by rewrite truncate_keep.
Qed.

Lemma truncate_length_of_100_at_10 :
  truncate (replicate 100 120%N) 10
  = (if Z.of_nat (length (replicate 100 120%N)) >? 10
     then take (Z.to_nat (10 - 1)) (replicate 100 120%N) ++ lit "..."
     else replicate 100 120%N)
  /\ Z.of_nat (length (truncate (replicate 100 120%N) 10))
     = (if Z.of_nat (length (replicate 100 120%N)) >? 10
        then 10 + 2 else Z.of_nat (length (replicate 100 120%N))).
Proof. apply (truncate_length (replicate 100 120%N) 10). lia. Defined.

(** X3: at a limit [n <= 0] every string longer than [n] becomes the bare
    marker ['...']; at a negative limit so does the empty string. *)
Theorem truncate_nonpositive_limit (s : jsstring) (n : Z) :
  n <= 0 -> n < Z.of_nat (length s) -> truncate s n = lit "...".
Proof.
  intros Hn Hlen. rewrite truncate_cut by exact Hlen.
  by replace (Z.to_nat (n - 1)) with 0%nat by lia.
Qed.

Lemma truncate_nonpositive_limit_empty :
  truncate [] (-1) = lit "...".
Proof. apply (truncate_nonpositive_limit [] (-1)); cbn; lia. Defined.

(** X5: the first [n - 1] code units of the string are the first code
    units of the result: [truncate] does not touch what it keeps. *)
Theorem truncate_keeps_prefix (s : jsstring) (n : Z) :
  take (Z.to_nat (n - 1)) s `prefix_of` truncate s n.
Proof.
  destruct (Z.le_gt_cases (Z.of_nat (length s)) n) as [Hle|Hgt].
  - rewrite truncate_keep by exact Hle. apply prefix_take.
  - rewrite truncate_cut by lia. by apply prefix_app_r.
Qed.

(** X4: the strings that [truncate] at 70 leaves as they are have at most
    70 code units, or have 72 and end with ['...']. *)
Theorem truncate_fixed_points (s : jsstring) :
  truncate s 70 = s
  <-> (length s <= 70)%nat
      \/ (length s = 72%nat /\ endsWith s (lit "...") = true).
Proof.
  split.
  - intros Hfix. destruct (Nat.le_gt_cases (length s) 70) as [Hle|Hgt];
      [by left|right].
    pose proof (truncate_long_length s Hgt) as Hlen. rewrite Hfix in Hlen.
    split; [exact Hlen|]. apply endsWith_suffix.
    exists (take 69 s). rewrite <- Hfix at 1. by apply truncate_long.
  - intros [Hle|[Hlen Hends]]; [by apply truncate_short|].
    rewrite truncate_long by lia.
    apply endsWith_suffix in Hends as [k Hk].
    assert (length k = 69%nat) as Hk69.
    { apply (f_equal length) in Hk. rewrite length_app in Hk.
      change (length (lit "...")) with 3%nat in Hk. lia. }
    rewrite Hk at 1. rewrite take_app_le by lia.
    rewrite take_ge by lia. by rewrite <- Hk.
Qed.

End TruncateAnyLimit.

(** ** Keys and shape of a table *)

Section TableKeys.

Context {Item : Type}.

Lemma lit_inj (s t : string) : lit s = lit t -> s = t.
Proof.
  revert t. induction s as [|c s IH]; intros [|d t]; cbn; try discriminate;
    [reflexivity|].
  intros [= Hc Hs]. f_equal; [|by apply IH].
  rewrite <- (ascii_N_embedding c), <- (ascii_N_embedding d). by rewrite Hc.
Qed.

Lemma of_index_inj (i j : nat) : of_index i = of_index j -> i = j.
Proof. intros H%lit_inj. by apply (inj pretty). Qed.

Lemma NoDup_imap_keys {A : Type} (key : nat -> jsstring) (l : list A) :
  (forall i j, key i = key j -> i = j) ->
  NoDup (imap (fun i _ => key i) l).
Proof.
  intros Hinj. rewrite imap_seq_0. apply NoDup_fmap_2_strong.
  - intros i j _ _. apply Hinj.
  - apply NoDup_seq.
Qed.

Lemma map_imap_index {A B C : Type} (f : B -> C) (g : nat -> A -> B)
    (h : nat -> C) (l : list A) :
  (forall i x, f (g i x) = h i) -> map f (imap g l) = imap (fun i _ => h i) l.
Proof.
  revert g h. induction l as [|x l IH]; intros g h Hg; [reflexivity|].
  cbn. rewrite Hg. f_equal. apply (IH (g ∘ S) (h ∘ S)). intros i y. apply Hg.
Qed.

(** X6: in a table of [toTable] the keys of the header cells are pairwise
    distinct, so are the keys of the rows, and so are the keys of the
    cells of each row. *)
Theorem toTable_keys_distinct (cols : list (Column Item)) (its : list Item) :
  NoDup (map th_key (thead (toTable cols its)))
  /\ NoDup (map tr_key (tbody (toTable cols its)))
  /\ Forall (fun r => NoDup (map td_key (tr_cells r))) (tbody (toTable cols its)).
Proof.
  unfold toTable. cbn [thead tbody]. split; [|split].
  - rewrite (map_imap_index _ _ (fun i => lit "header-" ++ of_index i))
      by reflexivity.
    apply NoDup_imap_keys. intros i j H. by apply app_inv_head, of_index_inj in H.
  - rewrite (map_imap_index _ _ (fun i => lit "row-" ++ of_index i))
      by reflexivity.
    apply NoDup_imap_keys. intros i j H. by apply app_inv_head, of_index_inj in H.
  - apply Forall_forall. intros r Hr.
    apply elem_of_lookup_imap_1 in Hr as (i & item & -> & _). cbn [tr_cells].
    rewrite (map_imap_index _ _
               (fun j => lit "cell-" ++ of_index i ++ lit "-" ++ of_index j))
      by reflexivity.
    apply NoDup_imap_keys. intros j k H.
    by apply app_inv_head, app_inv_head, app_inv_head, of_index_inj in H.
Qed.

End TableKeys.

(** ** [IndexTable] on any sidebar *)

Section IndexAnySidebar.

Variable useDocById : option jsstring -> option PropVersionDoc.

Lemma filter_survives_idem (entries : list PropSidebarItem) :
  List.filter survives (List.filter survives entries)
  = List.filter survives entries.
Proof.
  induction entries as [|e l IH]; cbn; [reflexivity|].
  destruct (survives e) eqn:E; [|exact IH]. cbn. by rewrite E, IH.
Qed.

(** X7: whatever the sidebar and the documents, the header of
    [IndexTable] is Name, Description, and every body row has two cells:
    the link of an entry of the sidebar, with the entry's label, and a
    string of at most 72 code units. *)
Theorem IndexTable_shape (entries : list PropSidebarItem) :
  header_cells (IndexTable entries useDocById) = [str "Name"; str "Description"]
  /\ Forall (fun cells =>
               exists e d,
                 In e entries
                 /\ cells = [jsx_a (VString (href e)) [VString (label e)];
                             VString d]
                 /\ (length d <= 72)%nat)
            (body_cells (IndexTable entries useDocById)).
Proof.
  split; [reflexivity|].
  unfold IndexTable. rewrite body_cells_toTable. apply List.Forall_forall.
  intros cells (r & <- & Hr)%in_map_iff.
  unfold IndexRows in Hr. apply in_map_iff in Hr as (e & <- & He).
  apply filter_In in He as [He _]. cbn.
  eexists e, _. split; [exact He|]. split; [reflexivity|].
  set (d := default [] _).
  destruct (Nat.le_gt_cases (length d) 70) as [Hle|Hgt].
  - rewrite truncate_short by exact Hle. lia.
  - rewrite truncate_long_length by exact Hgt. lia.
Qed.

(** X8: an entry without [docId] is never left out; its description is
    what the lookup of documents gives for [undefined]. *)
Theorem IndexTable_keeps_entries_without_docId
    (entries : list PropSidebarItem) (e : PropSidebarItem) :
  In e entries -> docId e = None ->
  In {| row_item := e;
        description := match useDocById None with
                       | Some doc => doc_description doc
                       | None => None
                       end |}
     (IndexRows entries useDocById).
Proof.
  intros Hin Hid. unfold IndexRows. apply in_map_iff. exists e.
  split; [by rewrite Hid|]. apply filter_In. split; [exact Hin|].
  unfold survives. by rewrite Hid.
Qed.

(** X9: leaving out beforehand the entries that [IndexTable] leaves out
    gives the same table, keys included. *)
Theorem IndexTable_of_survivors (entries : list PropSidebarItem) :
  IndexTable (List.filter survives entries) useDocById
  = IndexTable entries useDocById.
Proof. unfold IndexTable, IndexRows. by rewrite filter_survives_idem. Qed.

(** X10: the body cells of the index of two sidebars one after the other
    are those of the first followed by those of the second: what is
    rendered for an entry does not depend on the other entries. *)
Theorem IndexTable_app (l1 l2 : list PropSidebarItem) :
  body_cells (IndexTable (l1 ++ l2) useDocById)
  = body_cells (IndexTable l1 useDocById)
    ++ body_cells (IndexTable l2 useDocById).
Proof.
  unfold IndexTable. rewrite !body_cells_toTable. unfold IndexRows.
  by rewrite List.filter_app, !List.map_app.
Qed.

(** X12: [IndexTable] has at most one row per entry, and exactly one per
    entry when, and only when, no entry has a [docId] that ends with
    ["/index"] or is deprecated. *)
Theorem IndexTable_row_count (entries : list PropSidebarItem) :
  (length (tbody (IndexTable entries useDocById)) <= length entries)%nat
  /\ (length (tbody (IndexTable entries useDocById)) = length entries
      <-> Forall (fun e => ~ excluded e) entries).
Proof.
  unfold IndexTable. rewrite tbody_toTable_length. unfold IndexRows.
  rewrite length_map.
  assert (forall l : list PropSidebarItem,
            (length (List.filter survives l) <= length l)%nat) as Hle.
  { induction l as [|e l IH]; cbn; [lia|]. destruct (survives e); cbn; lia. }
  split; [apply Hle|].
  induction entries as [|e l IH]; cbn.
  - split; [constructor|reflexivity].
  - destruct (survives e) eqn:E; cbn.
    + rewrite Forall_cons. split.
      * intros [= H]. split; [by apply survives_true|by apply IH].
      * intros [_ H]. f_equal. by apply IH.
    + split.
      * intros H. specialize (Hle l). lia.
      * intros [H _]%Forall_cons. by apply survives_true in H; congruence.
Qed.

End IndexAnySidebar.

Lemma IndexTable_keeps_entries_without_docId_category :
  In {| row_item := {| docId := None;
                       href := lit "/docs/integrations/chat/google/";
                       label := lit "Google" |};
        description := None |}
     (IndexRows
        [ {| docId := Some (lit "integrations/chat/index");
             href := lit "/docs/integrations/chat/";
             label := lit "Chat models" |};
          {| docId := None;
             href := lit "/docs/integrations/chat/google/";
             label := lit "Google" |} ]
        (fun _ => None)).
Proof.
  apply (IndexTable_keeps_entries_without_docId (fun _ => None)
           [ {| docId := Some (lit "integrations/chat/index");
                href := lit "/docs/integrations/chat/";
                label := lit "Chat models" |};
             {| docId := None;
                href := lit "/docs/integrations/chat/google/";
                label := lit "Google" |} ]
           {| docId := None;
              href := lit "/docs/integrations/chat/google/";
              label := lit "Google" |}).
  - right. left. reflexivity.
  - reflexivity.
Defined.

(** X11: the lookup of documents decides neither the number of rows nor
    the Name column: two lookups give the same rows up to the description
    cells. *)
Theorem IndexTable_names_whatever_the_documents
    (useDocById useDocById' : option jsstring -> option PropVersionDoc)
    (entries : list PropSidebarItem) :
  length (tbody (IndexTable entries useDocById))
  = length (tbody (IndexTable entries useDocById'))
  /\ map (fun cells => hd VUndefined cells)
         (body_cells (IndexTable entries useDocById))
     = map (fun cells => hd VUndefined cells)
           (body_cells (IndexTable entries useDocById')).
Proof.
  unfold IndexTable. rewrite !tbody_toTable_length, !body_cells_toTable.
  unfold IndexRows. rewrite !length_map, !List.map_map. cbn. done.
Qed.

(** ** [CategoryTable] and [ItemTable] on any key *)

Section AnyKey.

Lemma lookup_last_of_In {K V : Type} (eqb : K -> K -> bool) (k : K)
    (l : list (K * V)) (v : V) :
  (forall x y, eqb x y = true <-> x = y) ->
  NoDup (map fst l) -> In (k, v) l -> lookup_last eqb k l = Some v.
Proof.
  intros Heqb. induction l as [|[k' v'] l IH]; cbn; [by intros _ []|].
  intros [Hk Hnd]%NoDup_cons [[= -> ->]|Hin].
  - destruct (lookup_last eqb k l) as [w|] eqn:E.
    + exfalso. apply Hk, list_elem_of_In, in_map_iff. exists (k, w).
      split; [reflexivity|]. eapply lookup_last_In; [|exact E].
      intros x y. apply Heqb.
    + by rewrite (proj2 (Heqb k k) eq_refl).
  - by rewrite (IH Hnd Hin).
Qed.

Lemma FEATURE_TABLES_keys_distinct : NoDup (map fst FEATURE_TABLES).
Proof. apply (bool_decide_eq_true_1 _). vm_compute. reflexivity. Qed.

Lemma registry_renders_defined :
  Forall (fun kc => renders_defined kc.2 = true) FEATURE_TABLES.
Proof. apply (bool_decide_eq_true_1 _). vm_compute. reflexivity. Qed.

(** X17: no key is written twice in the registry, so every category
    written in it is the one found under its key, and [CategoryTable]
    renders it. *)
Theorem every_category_is_rendered (category : jsstring) (cat : Category) :
  In (category, cat) FEATURE_TABLES ->
  own_property category = Some cat
  /\ CategoryTable category = Return (toTable (columns cat) (items cat)).
Proof.
  intros Hin.
  assert (own_property category = Some cat) as Hown.
  { apply lookup_last_of_In; [|exact FEATURE_TABLES_keys_distinct|exact Hin].
    intros x y. apply bool_decide_eq_true. }
  split; [exact Hown|]. unfold CategoryTable.
  by rewrite (FEATURE_TABLES_get_own _ _ Hown).
Qed.

Lemma every_category_is_rendered_vectorstores :
  own_property (lit "vectorstores") = Some Registry.vectorstores
  /\ CategoryTable (lit "vectorstores")
     = Return (toTable (columns Registry.vectorstores)
                       (items Registry.vectorstores)).
Proof.
  apply (every_category_is_rendered (lit "vectorstores") Registry.vectorstores).
  unfold FEATURE_TABLES. do 13 right. left. reflexivity.
Defined.

(** X14: [CategoryTable] and [ItemTable] throw a [TypeError] on the same
    keys, those that the registry does not own, and on no other; and
    [CategoryTable] never throws the error of an item not found. *)
Theorem TypeError_only_on_unknown_category (category item : jsstring) :
  ((exists p, CategoryTable category = Throw (TypeError p))
   <-> own_property category = None)
  /\ ((exists p, ItemTable category item = Throw (TypeError p))
      <-> own_property category = None)
  /\ (forall m, CategoryTable category <> Throw (Error m)).
Proof.
  unfold CategoryTable, ItemTable, FEATURE_TABLES_get.
  destruct (own_property category) as [cat|].
  - split; [|split].
    + split; [by intros [p [=]]|discriminate].
    + split; [|discriminate].
      destruct (find _ (items cat)); by intros [p [=]].
    + discriminate.
  - case_bool_decide.
    + split; [|split]; [split; eauto..|discriminate].
    + split; [|split]; [split; eauto..|discriminate].
Qed.

(** X13: a table that [ItemTable] returns is the one-row table of an item
    of the category asked for, whose [name] is the name asked for. *)
Theorem ItemTable_returns_a_named_item (category item : jsstring) (t : table) :
  ItemTable category item = Return t ->
  exists cat I,
    own_property category = Some cat
    /\ In I (items cat)
    /\ get I "name" = VString item
    /\ t = toTable (columns cat) [I].
Proof.
  unfold ItemTable, FEATURE_TABLES_get.
  destruct (own_property category) as [cat|];
    [|case_bool_decide; discriminate].
  destruct (find _ (items cat)) as [I|] eqn:E; [|discriminate].
  intros [= <-]. apply find_some in E as [Hin Hname].
  exists cat, I. split; [reflexivity|]. split; [exact Hin|].
  split; [by apply strict_equals_true|reflexivity].
Qed.

Lemma ItemTable_returns_a_named_item_Chroma :
  exists cat I,
    own_property (lit "vectorstores") = Some cat
    /\ In I (items cat)
    /\ get I "name" = VString (lit "Chroma")
    /\ toTable (columns Registry.vectorstores)
         [default [] (items Registry.vectorstores !! 1%nat)]
       = toTable (columns cat) [I].
Proof.
  apply (ItemTable_returns_a_named_item (lit "vectorstores") (lit "Chroma")).
  vm_compute. reflexivity.
Defined.

(** X15: the row of [ItemTable] for the item at position [i] of a
    category has the cells of row [i] of [CategoryTable], under the same
    header. *)
Theorem ItemTable_row_of_CategoryTable (category : jsstring) (cat : Category)
    (i : nat) (I : obj) :
  own_property category = Some cat ->
  items cat !! i = Some I ->
  exists name t tc,
    get I "name" = VString name
    /\ ItemTable category name = Return t
    /\ CategoryTable category = Return tc
    /\ header_cells t = header_cells tc
    /\ exists cells, body_cells t = [cells] /\ body_cells tc !! i = Some cells.
Proof.
  intros Hown Hi.
  assert (In I (items cat)) as Hin
    by (apply list_elem_of_In, list_elem_of_lookup; eauto).
  destruct (own_property_named_apart _ _ Hown) as [Hnd Hall].
  destruct (proj1 (List.Forall_forall _ _) Hall _ Hin) as [name Hname].
  exists name, (toTable (columns cat) [I]),
    (toTable (columns cat) (items cat)).
  split; [by apply item_name_Some|].
  unfold ItemTable, CategoryTable. rewrite (FEATURE_TABLES_get_own _ _ Hown).
  rewrite (find_by_name _ I) by assumption.
  split; [reflexivity|]. split; [reflexivity|].
  split; [by rewrite !header_cells_toTable|].
  exists (map (fun col => formatter col I) (columns cat)).
  split; [exact (body_cells_toTable (columns cat) [I])|].
  rewrite body_cells_toTable. change (map ?f ?l) with (f <$> l) at 1.
  by rewrite list_lookup_fmap, Hi.
Qed.

Lemma ItemTable_row_of_CategoryTable_Slack :
  exists name t tc,
    get (default [] (items Registry.productivity_loaders !! 2%nat)) "name"
    = VString name
    /\ ItemTable (lit "productivity_loaders") name = Return t
    /\ CategoryTable (lit "productivity_loaders") = Return tc
    /\ header_cells t = header_cells tc
    /\ exists cells, body_cells t = [cells]
                     /\ body_cells tc !! 2%nat = Some cells.
Proof.
  apply (ItemTable_row_of_CategoryTable (lit "productivity_loaders")
           Registry.productivity_loaders 2).
  - vm_compute. reflexivity.
  - reflexivity.
Defined.

(** X16: no header cell and no body cell that [CategoryTable] or
    [ItemTable] renders is or contains [undefined]: every item of the
    registry has the fields that the links and texts of its category's
    columns read. *)
Theorem rendered_cells_are_defined (category item : jsstring) (t : table) :
  CategoryTable category = Return t \/ ItemTable category item = Return t ->
  Forall (fun v => defined v = true) (header_cells t)
  /\ Forall (Forall (fun v => defined v = true)) (body_cells t).
Proof.
  assert (forall cat its,
            own_property category = Some cat ->
            (forall I, In I its -> In I (items cat)) ->
            Forall (fun v => defined v = true)
                   (header_cells (toTable (columns cat) its))
            /\ Forall (Forall (fun v => defined v = true))
                      (body_cells (toTable (columns cat) its))) as Hgen.
  { intros cat its Hown Hits. apply own_property_In in Hown.
    pose proof (proj1 (List.Forall_forall _ _) registry_renders_defined
                  _ Hown) as Hdef.
    cbn in Hdef. apply andb_true_iff in Hdef as [Ht Hc].
    rewrite header_cells_toTable, body_cells_toTable. split.
    - apply List.Forall_forall. intros v (col & <- & Hcol)%in_map_iff.
      by apply (proj1 (forallb_forall _ _) Ht).
    - apply List.Forall_forall. intros cells (I & <- & HI)%in_map_iff.
      apply List.Forall_forall. intros v (col & <- & Hcol)%in_map_iff.
      pose proof (proj1 (forallb_forall _ _) Hc I (Hits I HI)) as HcI.
      by apply (proj1 (forallb_forall _ _) HcI). }
  unfold CategoryTable, ItemTable, FEATURE_TABLES_get.
  destruct (own_property category) as [cat|] eqn:Hown.
  - intros [[= <-]|H].
    + by apply Hgen.
    + destruct (find _ (items cat)) as [I|] eqn:E; [|discriminate].
      injection H as <-. apply find_some in E as [Hin _].
      apply Hgen; [reflexivity|]. by intros I' [<-|[]].
  - case_bool_decide; by intros [|].
Qed.

Lemma rendered_cells_are_defined_llms :
  Forall (fun v => defined v = true)
         (header_cells (toTable (columns Registry.llms) (items Registry.llms)))
  /\ Forall (Forall (fun v => defined v = true))
            (body_cells (toTable (columns Registry.llms)
                                 (items Registry.llms))).
Proof.
  apply (rendered_cells_are_defined (lit "llms") []).
  left. vm_compute. reflexivity.
Defined.

End AnyKey.

(** ** [parse_final_answer] *)

Section Split.

Import Py.

Variables (c0 : N) (sep' : pystr).

Local Abbreviation sep := (c0 :: sep').

Lemma strip_prefix_Some (t s rest : pystr) :
  strip_prefix t s = Some rest <-> s = t ++ rest.
Proof.
  revert s. induction t as [|x t IH]; intros s; cbn.
  - destruct s; split; by intros [= ->].
  - destruct s as [|y s]; [split; discriminate|].
    case_bool_decide as Hxy.
    + subst y. rewrite IH. split; [by intros ->|by intros [= ->]].
    + split; [discriminate|]. by intros [= -> _].
Qed.

Lemma split_at_cons (c : N) (s' : pystr) :
  split_at c0 sep' (c :: s')
  = match strip_prefix sep (c :: s') with
    | Some rest => [] :: split_at c0 sep' rest
    | None => cons_head c (split_at c0 sep' s')
    end.
Proof.
  rewrite split_at_equation_2.
  destruct (inspect (strip_prefix (c0 :: sep') (c :: s'))) as [[rest|] H];
    cbn -[strip_prefix split_at]; rewrite H; reflexivity.
Qed.

Lemma split_at_nonempty (s : pystr) : split_at c0 sep' s <> [].
Proof.
  destruct s as [|c s]; [by rewrite split_at_equation_1|].
  rewrite split_at_cons. destruct (strip_prefix sep (c :: s)); [done|].
  unfold cons_head. by destruct (split_at c0 sep' s).
Qed.

Lemma cons_head_length (c : N) (pieces : list pystr) :
  pieces <> [] -> length (cons_head c pieces) = length pieces.
Proof. by destruct pieces. Qed.

Lemma occurs_nil : ~ occurs sep [].
Proof. intros (pre & post & H). by destruct pre. Qed.

Lemma occurs_cons (c : N) (s : pystr) :
  occurs sep (c :: s) <-> strip_prefix sep (c :: s) <> None \/ occurs sep s.
Proof.
  split.
  - intros ([|x pre] & post & H).
    + left. by rewrite (proj2 (strip_prefix_Some sep (c :: s) post) H).
    + right. injection H as -> ->. by exists pre, post.
  - intros [H|(pre & post & ->)].
    + destruct (strip_prefix sep (c :: s)) as [rest|] eqn:E; [|done].
      apply strip_prefix_Some in E. by exists [], rest.
    + by exists (c :: pre), post.
Qed.

(** The separator occurs exactly when there are two pieces or more. *)
Lemma split_at_occurs (s : pystr) :
  occurs sep s <-> (2 <= length (split_at c0 sep' s))%nat.
Proof.
  induction s as [|c s IH].
  - rewrite split_at_equation_1. cbn. split; [by intros ?%occurs_nil|lia].
  - rewrite occurs_cons, split_at_cons.
    destruct (strip_prefix sep (c :: s)) as [rest|] eqn:E.
    + pose proof (split_at_nonempty rest).
      destruct (split_at c0 sep' rest); [done|]. cbn. split; [lia|by left].
    + rewrite cons_head_length by apply split_at_nonempty. rewrite <- IH.
      split; [by intros [|]|by right].
Qed.

Lemma split_at_no_occurrence (s : pystr) :
  ~ occurs sep s -> split_at c0 sep' s = [s].
Proof.
  induction s as [|c s IH]; [by rewrite split_at_equation_1|].
  rewrite occurs_cons, split_at_cons. intros H.
  destruct (strip_prefix sep (c :: s)); [exfalso; apply H; by left|].
  rewrite IH; [reflexivity|]. intros Hs. apply H. by right.
Qed.

(** Behind a piece without the separator in which no occurrence starts
    either, the separator ends the piece. *)
Lemma split_at_first (pre rest : pystr) :
  (forall v u, pre = v ++ u -> u <> [] ->
               strip_prefix sep (u ++ sep ++ rest) = None) ->
  split_at c0 sep' (pre ++ sep ++ rest) = pre :: split_at c0 sep' rest.
Proof.
  induction pre as [|c pre IH]; intros Hpre.
  - change ([] ++ sep ++ rest) with (c0 :: (sep' ++ rest)).
    rewrite split_at_cons.
    by rewrite (proj2 (strip_prefix_Some sep (c0 :: (sep' ++ rest)) rest)
                  eq_refl).
  - change ((c :: pre) ++ sep ++ rest) with (c :: (pre ++ sep ++ rest)).
    rewrite split_at_cons.
    pose proof (Hpre [] (c :: pre) eq_refl) as H0.
    change ((c :: pre) ++ sep ++ rest) with (c :: (pre ++ sep ++ rest)) in H0.
    rewrite H0 by done.
    rewrite IH; [reflexivity|].
    intros v u -> Hu. by apply (Hpre (c :: v) u).
Qed.

(** When its first character does not come back in the separator, an
    occurrence cannot start in a piece free of it and end behind it. *)
Lemma no_early_match (pre rest : pystr) :
  c0 ∉ sep' -> ~ occurs sep pre ->
  forall v u, pre = v ++ u -> u <> [] ->
              strip_prefix sep (u ++ sep ++ rest) = None.
Proof.
  intros Hc0 Hpre v u -> Hu.
  destruct (strip_prefix sep (u ++ sep ++ rest)) as [r|] eqn:E; [|done].
  exfalso. apply strip_prefix_Some in E.
  destruct (Nat.le_gt_cases (length sep) (length u)) as [Hle|Hgt].
  - apply Hpre. exists v, (drop (length sep) u).
    apply (f_equal (take (length sep))) in E.
    rewrite take_app_le, take_app_length in E by exact Hle.
    rewrite <- (take_drop (length sep) u) at 1. by rewrite E.
  - apply (f_equal (fun l : list N => l !! length u)) in E. cbn beta in E.
    rewrite lookup_app_r, Nat.sub_diag in E by lia.
    rewrite (lookup_app_l sep r) in E by lia.
    destruct u as [|x u]; [done|]. cbn in E.
    apply Hc0. eapply list_elem_of_lookup_2. symmetry. exact E.
Qed.

Lemma join_split_at (s : pystr) : join sep (split_at c0 sep' s) = s.
Proof.
  remember (length s) as n eqn:Hn. revert s Hn.
  induction n as [n IH] using lt_wf_ind. intros [|c s] Hn.
  - by rewrite split_at_equation_1.
  - rewrite split_at_cons.
    destruct (strip_prefix sep (c :: s)) as [rest|] eqn:E.
    + apply strip_prefix_Some in E.
      assert (join sep (split_at c0 sep' rest) = rest) as Hrest.
      { apply (IH (length rest)); [|reflexivity].
        rewrite Hn, E, length_app. cbn. lia. }
      pose proof (split_at_nonempty rest).
      cbn [join]. destruct (split_at c0 sep' rest) eqn:Es; [done|].
      rewrite E. cbn [app]. by rewrite Hrest.
    + assert (join sep (split_at c0 sep' s) = s) as Hs
        by (apply (IH (length s)); [cbn in Hn; lia|reflexivity]).
      pose proof (split_at_nonempty s).
      destruct (split_at c0 sep' s) as [|p [|q ps]]; [done|..];
        cbn in Hs |- *; by rewrite Hs.
Qed.

Lemma join_cons_prefix (p : pystr) (ps : list pystr) :
  p `prefix_of` join sep (p :: ps).
Proof.
  cbn [join]. destruct ps; [done|]. by apply prefix_app_r.
Qed.

Lemma split_at_pieces_free (s : pystr) :
  Forall (fun p => ~ occurs sep p) (split_at c0 sep' s).
Proof.
  remember (length s) as n eqn:Hn. revert s Hn.
  induction n as [n IH] using lt_wf_ind. intros [|c s] Hn.
  - rewrite split_at_equation_1. constructor; [apply occurs_nil|constructor].
  - rewrite split_at_cons.
    destruct (strip_prefix sep (c :: s)) as [rest|] eqn:E.
    + constructor; [apply occurs_nil|].
      apply (IH (length rest)); [|reflexivity].
      apply strip_prefix_Some in E.
      rewrite Hn, E, length_app. cbn. lia.
    + assert (Forall (fun p => ~ occurs sep p) (split_at c0 sep' s)) as Hs
        by (apply (IH (length s)); [cbn in Hn; lia|reflexivity]).
      pose proof (split_at_nonempty s) as Hne.
      pose proof (join_split_at s) as Hjoin.
      destruct (split_at c0 sep' s) as [|p ps]; [done|].
      apply Forall_cons in Hs as [Hp Hps]. cbn [cons_head].
      constructor; [|exact Hps].
      rewrite occurs_cons. intros [Hstart|Hin]; [|done].
      destruct (strip_prefix sep (c :: p)) as [r|] eqn:Er; [|done].
      apply strip_prefix_Some in Er.
      destruct (join_cons_prefix p ps) as [k Hk]. rewrite Hjoin in Hk.
      assert (strip_prefix sep (c :: s) = Some (r ++ k)) as Hc; [|congruence].
      apply strip_prefix_Some. rewrite Hk, app_comm_cons, Er.
      by rewrite <- app_assoc.
Qed.

End Split.

Section ParseFinalAnswer.

Import Py.

Local Abbreviation F := 70%N.
Local Abbreviation inal_answer := (lit "inal answer: ").

Lemma final_answer_marker_cons : final_answer_marker = F :: inal_answer.
Proof. reflexivity. Qed.

Lemma F_not_in_inal_answer : F ∉ inal_answer.
Proof. apply (bool_decide_eq_true_1 _). vm_compute. reflexivity. Qed.

Lemma parse_final_answer_pieces (output : pystr) :
  parse_final_answer output
  = match split_at F inal_answer output !! 1%nat with
    | Some answer => Ok answer
    | None => Raise IndexError
    end.
Proof. reflexivity. Qed.

(** X18: [parse_final_answer] raises [IndexError] exactly when the output
    does not contain ["Final answer: "]; it raises nothing else. *)
Theorem parse_final_answer_IndexError (output : pystr) :
  (parse_final_answer output = Raise IndexError
   <-> ~ occurs final_answer_marker output)
  /\ parse_final_answer output <> Raise ValueError.
Proof.
  rewrite parse_final_answer_pieces, final_answer_marker_cons.
  rewrite split_at_occurs.
  destruct (split_at F inal_answer output !! 1%nat) as [answer|] eqn:E.
  - split; [|discriminate]. split; [discriminate|]. intros H. exfalso.
    apply H. apply lookup_lt_Some in E. lia.
  - split; [|discriminate]. split; [|reflexivity]. intros _.
    apply lookup_ge_None in E. lia.
Qed.

(** X19: when neither the draft nor the answer contains the marker,
    [parse_final_answer] gives back the answer written behind the marker,
    and drops what follows a second marker. *)
Theorem parse_final_answer_reads_the_answer (draft answer post : pystr) :
  ~ occurs final_answer_marker draft ->
  ~ occurs final_answer_marker answer ->
  post = [] \/ (exists w, post = final_answer_marker ++ w) ->
  parse_final_answer (draft ++ final_answer_marker ++ answer ++ post)
  = Ok answer.
Proof.
  rewrite parse_final_answer_pieces, final_answer_marker_cons.
  intros Hdraft Hanswer Hpost.
  rewrite split_at_first
    by (apply no_early_match; [apply F_not_in_inal_answer|exact Hdraft]).
  destruct Hpost as [->|[w ->]].
  - rewrite app_nil_r, split_at_no_occurrence by exact Hanswer. reflexivity.
  - rewrite split_at_first
      by (apply no_early_match; [apply F_not_in_inal_answer|exact Hanswer]).
    reflexivity.
Qed.

Lemma parse_final_answer_reads_the_answer_query :
  parse_final_answer
    (lit "First draft: SELECT 1; " ++ final_answer_marker
       ++ lit "SELECT 2;" ++ [])
  = Ok (lit "SELECT 2;").
Proof.
  apply (parse_final_answer_reads_the_answer
           (lit "First draft: SELECT 1; ") (lit "SELECT 2;") []).
  - rewrite final_answer_marker_cons, split_at_occurs. vm_compute. lia.
  - rewrite final_answer_marker_cons, split_at_occurs. vm_compute. lia.
  - by left.
Defined.

(** X20: what [parse_final_answer] returns does not contain the marker,
    and stands in the output between the first marker, before which there
    is none, and either the end or the next marker. *)
Theorem parse_final_answer_sound (output answer : pystr) :
  parse_final_answer output = Ok answer ->
  ~ occurs final_answer_marker answer
  /\ exists draft post,
       ~ occurs final_answer_marker draft
       /\ output = draft ++ final_answer_marker ++ answer ++ post
       /\ (post = [] \/ exists w, post = final_answer_marker ++ w).
Proof.
  rewrite parse_final_answer_pieces, final_answer_marker_cons.
  pose proof (split_at_pieces_free F inal_answer output) as Hfree.
  pose proof (join_split_at F inal_answer output) as Hjoin.
  destruct (split_at F inal_answer output) as [|draft [|a more]];
    [discriminate..|].
  intros [= ->].
  apply Forall_cons in Hfree as [Hdraft [Hanswer _]%Forall_cons].
  split; [exact Hanswer|]. exists draft.
  destruct more as [|q more].
  - exists []. split; [exact Hdraft|]. split; [|by left].
    by rewrite app_nil_r, <- Hjoin.
  - exists (F :: inal_answer ++ join (F :: inal_answer) (q :: more)).
    split; [exact Hdraft|]. split; [|right; eauto].
    by rewrite <- Hjoin.
Qed.

Lemma parse_final_answer_sound_twice :
  ~ occurs final_answer_marker (lit "A")
  /\ exists draft post,
       ~ occurs final_answer_marker draft
       /\ lit "Final answer: AFinal answer: B"
          = draft ++ final_answer_marker ++ lit "A" ++ post
       /\ (post = [] \/ exists w, post = final_answer_marker ++ w).
Proof.
  apply (parse_final_answer_sound (lit "Final answer: AFinal answer: B")).
  vm_compute. reflexivity.
Defined.

End ParseFinalAnswer.
